(** * The tiddler store facade (src/backend/api/tiddler-store.ts)

    A shallow embedding of [GlobalTiddlerStore]: the recipe and bag read,
    write and remove operations, the helpers they share ([deduplicate],
    [getFirst], [getUpdater]) and the collaborators they call, followed by
    the properties of the facade. *)

From stdpp Require Import gmap strings list fin_maps pretty.
From Stdlib Require Import String.

Open Scope string_scope.

#[local] Set Warnings "-register-all".

(** ** Data model *)

(** Field values of a tiddler: a JSON-like tree.  Nested objects are kept as
    field lists, so that a nested value is one opaque top-level field. *)
Inductive Value : Type :=
| VUndefined
| VNull
| VBool (b : bool)
| VNum (n : Z)
| VStr (s : string)
| VArr (items : list Value)
| VObj (fields : list (string * Value)).

(** A [Tiddler] (and a [TiddlerData], its partial form) is a JS object used
    as a map from field names to values. *)
Abbreviation Tiddler := (gmap string Value).
Abbreviation TiddlerData := (gmap string Value).

Definition Revision := string.

Record TiddlerNamespace := { ns_wiki : string; ns_bag : string }.

Record NamespacedRecipe := { recipe_wiki : string; recipe_name : string }.

Record NamespacedTiddler := {
  namespace : TiddlerNamespace;
  title : string;
  value : Tiddler;
  revision : Revision
}.

(** The decision the policy checker returns for one bag. *)
Record Permission := {
  perm_bag : string;
  allowed : bool;
  reason : option string
}.

(** [TiddlerUpdateOrCreate]: the facade tells the two shapes apart with
    ["update" in updateOrCreate]. *)
Inductive TiddlerUpdateOrCreate :=
| Update (update : TiddlerData) (expectedRevision : option Revision)
| Create (create : TiddlerData).

(** Modelled from the spec: [getTiddlerData] of shared/model/store, the
    candidate content handed to the policy checker (the update fields or the
    creation fields). *)
Definition getTiddlerData (updateOrCreate : TiddlerUpdateOrCreate) : TiddlerData :=
  match updateOrCreate with
  | Update update _ => update
  | Create create => create
  end.

(** Modelled from the spec: [getExpectedRevision] of shared/model/store,
    present for an update that carries one, absent for a create. *)
Definition getExpectedRevision (updateOrCreate : TiddlerUpdateOrCreate)
  : option Revision :=
  match updateOrCreate with
  | Update _ expectedRevision => expectedRevision
  | Create _ => None
  end.

Inductive AccessMode := ReadMode | WriteMode.

(** A result that is one record or an array of them. *)
Inductive MaybeArray (A : Type) :=
| Single (a : A)
| Many (l : list A).
Arguments Single {A} a.
Arguments Many {A} l.

(** ** Errors *)

Inductive HTTPStatus :=
| HTTP_BAD_REQUEST
| HTTP_FORBIDDEN
| HTTP_NOT_FOUND
| HTTP_CONFLICT.

(** What a call can throw: an [HTTPError] with its status, a plain [Error],
    or the [TypeError] of reading a property of [undefined]. *)
Inductive Thrown :=
| HTTPError (message : string) (status : HTTPStatus)
| Error (message : string)
| TypeError.

(** How an awaited promise settles. *)
Inductive Outcome (A : Type) :=
| Resolved (a : A)
| Rejected (e : Thrown).
Arguments Resolved {A} a.
Arguments Rejected {A} e.

(** ** JavaScript helpers *)

(** Truthiness of an optional string: [undefined] and [""] are falsy. *)
Definition truthy (s : option string) : bool :=
  match s with
  | Some s => negb (String.eqb s "")
  | None => false
  end.

(** [s || ""]. *)
Definition or_empty (s : option string) : string := default "" s.

(** [Array.prototype.join] on an array of strings. *)
Definition join (sep : string) (l : list string) : string := String.concat sep l.

(** [Object.assign(target, ...sources)]: every own property of each source,
    in turn, is set on the target. *)
Definition Object_assign (target : gmap string Value)
  (sources : list (gmap string Value)) : gmap string Value :=
  foldl (fun tgt src => map_fold (fun k v acc => <[k := v]> acc) tgt src)
        target sources.

(** ** Pure helpers of the store *)

(** [deduplicate]: the loop over [tiddlers], with the two locals
    [encounteredTitles] and [deduplicated].  The body tests the set and
    pushes; it has no statement that adds to the set. *)
Fixpoint deduplicate_loop (encounteredTitles : gset string)
  (deduplicated tiddlers : list NamespacedTiddler) : list NamespacedTiddler :=
  match tiddlers with
  | [] => deduplicated
  | tiddler :: rest =>
      if decide (title tiddler ∈ encounteredTitles)
      then deduplicate_loop encounteredTitles deduplicated rest
      else deduplicate_loop encounteredTitles (deduplicated ++ [tiddler]) rest
  end.

Definition deduplicate (tiddlers : list NamespacedTiddler)
  : list NamespacedTiddler :=
  deduplicate_loop ∅ [] tiddlers.

(** [getFirst]: [tiddlers.find((t) => t.title === title)]. *)
Definition getFirst (tiddlers : list NamespacedTiddler) (title' : string)
  : option NamespacedTiddler :=
  List.find (fun t => String.eqb (title t) title') tiddlers.

(** The document factory, an injected collaborator. *)
Class TiddlerFactory (User : Type) := {
  createTiddler : User -> string -> option Value -> TiddlerData -> Tiddler
}.

(** [getUpdater]: the closure handed to the compare-and-swap.  It returns a
    tiddler or throws. *)
Definition getUpdater {User} `{TiddlerFactory User}
  (user : User) (title' : string) (updateOrCreate : TiddlerUpdateOrCreate)
  (existingTiddler : option Tiddler) : Outcome Tiddler :=
  match updateOrCreate with
  | Update update _ =>
      match existingTiddler with
      | None =>
          Rejected (HTTPError
            ("Tiddler " +:+ title' +:+
             " received update, but no such tiddler exists in bag")
            HTTP_BAD_REQUEST)
      | Some existingTiddler =>
          Resolved (Object_assign ∅ [existingTiddler; update])
      end
  | Create create =>
      Resolved (createTiddler user title' (create !! "type") create)
  end.

(** ** Asynchronous calls with state

    An awaited call is a state transformer that settles: it resolves with a
    value or rejects with what was thrown, and leaves a state behind. *)

Definition Async (St A : Type) : Type := St -> Outcome A * St.

Definition resolve {St A} (a : A) : Async St A := fun st => (Resolved a, st).

Definition throw {St A} (e : Thrown) : Async St A := fun st => (Rejected e, st).

Definition await {St A B} (c : Async St A) (k : A -> Async St B) : Async St B :=
  fun st =>
    match c st with
    | (Resolved a, st') => k a st'
    | (Rejected e, st') => (Rejected e, st')
    end.

Notation "'let*' x ':=' c 'in' k" := (await c (fun x => k))
  (at level 10, x pattern, c at level 100, k at level 200).

(** ** Collaborators *)

(** The calls the facade issues on the persistence handle. *)
Inductive PersistenceCall :=
| CallReadDocs (keys : list (TiddlerNamespace * string))
| CallReadCollections (namespaces : list TiddlerNamespace)
| CallUpdateDoc (ns : TiddlerNamespace) (title' : string)
    (expectedRevision : option Revision).

(** The updater given to [updateDoc] is a closure: [L] is the state of the
    variables it captures and may assign. *)
Definition Updater (L : Type) : Type := option Tiddler -> Async L (option Tiddler).

(** [TiddlerPersistence]: the handle of a transaction, over a store state
    [S].  Reads do not change the store; [updateDoc] may, and may run the
    updater. *)
Class TiddlerPersistence (S : Type) := {
  readDocs : list (TiddlerNamespace * string) -> S -> Outcome (list NamespacedTiddler);
  readCollections : list TiddlerNamespace -> S -> Outcome (list NamespacedTiddler);
  updateDoc : forall {L : Type}, TiddlerNamespace -> string -> Updater L ->
              option Revision -> Async (S * L) (option NamespacedTiddler)
}.

(** [PolicyChecker]: consults the persistence handle and answers with one
    permission per bag. *)
Class PolicyChecker (S User : Type) := {
  verifyReadAccess : S -> User -> string -> list string -> Outcome (list Permission);
  getWriteableBag : S -> User -> string -> list string -> string -> TiddlerData ->
                    Outcome (list Permission);
  verifyRemoveAccess : S -> User -> string -> list string -> Outcome (list Permission)
}.

(** [RecipeResolver]: the ordered bags of a recipe, or [undefined]. *)
Class RecipeResolver (S User : Type) := {
  getRecipeBags : User -> AccessMode -> S -> NamespacedRecipe ->
                  Outcome (option (list string))
}.

(** The state a facade call runs in: the store behind the persistence handle
    and the persistence calls issued so far. *)
Record World (S : Type) := {
  handle : S;
  issued : list PersistenceCall
}.
Arguments handle {S} w.
Arguments issued {S} w.

Definition record_call {S} (c : PersistenceCall) (w : World S) : World S :=
  {| handle := handle w; issued := issued w ++ [c] |}.

(** ** The facade *)

Section GlobalTiddlerStore.
Context {S User : Type}.
Context `{persistenceOps : TiddlerPersistence S}.
Context `{policyChecker : PolicyChecker S User}.
Context `{recipeResolver : RecipeResolver S User}.
Context `{tiddlerFactory : TiddlerFactory User}.

(** A collaborator that only consults the persistence handle. *)
Definition consult {A} (f : S -> Outcome A) : Async (World S) A :=
  fun w => (f (handle w), w).

(** The same, from inside a call whose closure captures [L]. *)
Definition consult_with {L A} (f : S -> Outcome A) : Async (World S * L) A :=
  fun '(w, l) => (f (handle w), (w, l)).

Definition persistence_readDocs (keys : list (TiddlerNamespace * string))
  : Async (World S) (list NamespacedTiddler) :=
  fun w => (readDocs keys (handle w), record_call (CallReadDocs keys) w).

Definition persistence_readCollections (namespaces : list TiddlerNamespace)
  : Async (World S) (list NamespacedTiddler) :=
  fun w => (readCollections namespaces (handle w),
            record_call (CallReadCollections namespaces) w).

Definition persistence_updateDoc {L} (ns : TiddlerNamespace) (title' : string)
  (updater : Updater L) (expectedRevision : option Revision)
  : Async (World S * L) (option NamespacedTiddler) :=
  fun '(w, l) =>
    let '(r, (s', l')) := updateDoc ns title' updater expectedRevision (handle w, l) in
    (r, ({| handle := s';
            issued := issued w ++ [CallUpdateDoc ns title' expectedRevision] |}, l')).

(** Modelled from the spec: the Transaction Runner
    (common/persistence/interfaces is not under src/).  It runs the callback
    once against the persistence handle and propagates its result or its
    failure unchanged. *)
Definition runTransaction {St A} (user : User) (fn : Async St A) : Async St A := fn.

(** A closure that captures no assignable variable. *)
Definition closure (f : option Tiddler -> Outcome Tiddler) : Updater unit :=
  fun existingTiddler l =>
    match f existingTiddler with
    | Resolved t => (Resolved (Some t), l)
    | Rejected e => (Rejected e, l)
    end.

(** A call whose closure captures nothing, seen from the facade. *)
Definition without_locals {A} (c : Async (World S * unit) A) : Async (World S) A :=
  fun w => let '(r, (w', _)) := c (w, tt) in (r, w').

Definition readFromBag (user : User) (ns : TiddlerNamespace)
  (title' : option string) : Async (World S) (MaybeArray NamespacedTiddler) :=
  runTransaction user (
    let* readPermission :=
      consult (fun persistence =>
        verifyReadAccess persistence user (ns_wiki ns) [ns_bag ns]) in
    match readPermission with
    | [] => throw TypeError
    | p :: _ =>
        if allowed p then
          let* tiddlers :=
            (if truthy title'
             then persistence_readDocs [(ns, or_empty title')]
             else persistence_readCollections [ns]) in
          if truthy title' then
            match tiddlers with
            | [] =>
                throw (HTTPError
                  ("Tiddler " +:+ or_empty title' +:+ " not found in wiki " +:+
                   ns_wiki ns +:+ " bag " +:+ ns_bag ns)
                  HTTP_NOT_FOUND)
            | t :: _ => resolve (Single t)
            end
          else resolve (Many tiddlers)
        else
          throw (HTTPError ("Tiddler read denied " +:+ or_empty (reason p))
                           HTTP_FORBIDDEN)
    end).

Definition readFromRecipe (user : User) (namespacedRecipe : NamespacedRecipe)
  (title' : option string) : Async (World S) (MaybeArray NamespacedTiddler) :=
  runTransaction user (
    let* bags :=
      consult (fun persistence =>
        getRecipeBags user ReadMode persistence namespacedRecipe) in
    match bags with
    | None =>
        throw (HTTPError
          ("Recipe " +:+ recipe_name namespacedRecipe +:+ " not found in wiki " +:+
           recipe_wiki namespacedRecipe)
          HTTP_NOT_FOUND)
    | Some bags =>
        let* readPermissions :=
          consult (fun persistence =>
            verifyReadAccess persistence user (recipe_wiki namespacedRecipe) bags) in
        if negb (forallb allowed readPermissions) then
          throw (HTTPError
            ("At least one bag referenced by recipe " +:+
             recipe_name namespacedRecipe +:+ " in wiki " +:+
             recipe_wiki namespacedRecipe +:+ " is not readable. Errors: " +:+
             join ", " (map or_empty
                              (List.filter truthy (map reason readPermissions))))
            HTTP_NOT_FOUND)
        else
          let* tiddlers :=
            persistence_readCollections
              (map (fun bag => {| ns_wiki := recipe_wiki namespacedRecipe;
                                  ns_bag := bag |}) bags) in
          if truthy title' then
            match getFirst tiddlers (or_empty title') with
            | None =>
                throw (HTTPError
                  ("Tiddler " +:+ or_empty title' +:+ " not found in wiki " +:+
                   recipe_wiki namespacedRecipe +:+ " recipe " +:+
                   recipe_name namespacedRecipe)
                  HTTP_NOT_FOUND)
            | Some tiddler => resolve (Single tiddler)
            end
          else resolve (Many (deduplicate tiddlers))
    end).

Definition writeToBag (user : User) (ns : TiddlerNamespace) (title' : string)
  (updateOrCreate : TiddlerUpdateOrCreate) : Async (World S) NamespacedTiddler :=
  let* txResult :=
    runTransaction user (
      let* writePermission :=
        consult (fun persistence =>
          getWriteableBag persistence user (ns_wiki ns) [ns_bag ns] title'
                          (getTiddlerData updateOrCreate)) in
      match writePermission with
      | [] => throw TypeError
      | p :: _ =>
          if allowed p then
            without_locals
              (persistence_updateDoc ns title'
                 (closure (getUpdater user title' updateOrCreate))
                 (getExpectedRevision updateOrCreate))
          else
            throw (HTTPError ("Tiddler write denied " +:+ or_empty (reason p))
                             HTTP_FORBIDDEN)
      end) in
  match txResult with
  | None => throw (Error "Result of write transaction should not be null")
  | Some txResult => resolve txResult
  end.

(** [writeToRecipe] ends in [return txResult!]: the non-null assertion is
    erased at run time, so what the call resolves with is optional. *)
Definition writeToRecipe (user : User) (namespacedRecipe : NamespacedRecipe)
  (title' : string) (updateOrCreate : TiddlerUpdateOrCreate)
  : Async (World S) (option NamespacedTiddler) :=
  let* txResult :=
    runTransaction user (
      let* bags :=
        consult (fun persistence =>
          getRecipeBags user WriteMode persistence namespacedRecipe) in
      match bags with
      | None =>
          throw (HTTPError
            ("Recipe " +:+ recipe_name namespacedRecipe +:+ " not found in wiki " +:+
             recipe_wiki namespacedRecipe)
            HTTP_NOT_FOUND)
      | Some bags =>
          let* permissions :=
            consult (fun persistence =>
              getWriteableBag persistence user (recipe_wiki namespacedRecipe) bags
                              title' (getTiddlerData updateOrCreate)) in
          match List.find allowed permissions with
          | None =>
              throw (HTTPError
                ("No bags in wiki " +:+ recipe_wiki namespacedRecipe +:+ " recipe " +:+
                 recipe_name namespacedRecipe +:+
                 " found which can be written to. Errors: " +:+
                 join ", " (map (fun p => or_empty (reason p))
                                (List.filter (fun p => truthy (reason p)) permissions)))
                HTTP_FORBIDDEN)
          | Some bagToWrite =>
              without_locals
                (persistence_updateDoc
                   {| ns_wiki := recipe_wiki namespacedRecipe;
                      ns_bag := perm_bag bagToWrite |}
                   title'
                   (closure (getUpdater user title' updateOrCreate))
                   (getExpectedRevision updateOrCreate))
          end
      end) in
  resolve txResult.

(** The updater of [removeFromBag]: it assigns the captured
    [tiddlerExisted] and returns [undefined]. *)
Definition removeUpdater : Updater bool :=
  fun tiddler _ => (Resolved None, bool_decide (tiddler ≠ None)).

Definition removeFromBag (user : User) (ns : TiddlerNamespace) (title' : string)
  (expectedRevision : Revision) : Async (World S) bool :=
  fun w =>
    let tiddlerExisted := false in
    let '(txResult, (w', tiddlerExisted)) :=
      runTransaction user (
        let* writePermission :=
          consult_with (fun persistence =>
            verifyRemoveAccess persistence user (ns_wiki ns) [ns_bag ns]) in
        match writePermission with
        | [] => throw TypeError
        | p :: _ =>
            if allowed p then
              persistence_updateDoc ns title' removeUpdater (Some expectedRevision)
            else
              throw (HTTPError ("Tiddler remove denied " +:+ or_empty (reason p))
                               HTTP_FORBIDDEN)
        end) (w, tiddlerExisted) in
    match txResult with
    | Resolved _ => (Resolved tiddlerExisted, w')
    | Rejected e => (Rejected e, w')
    end.

End GlobalTiddlerStore.

(** ** The bound adapter *)

(** [SingleWikiNamespacedTiddler]: the record of a store bound to one wiki. *)
Record SingleWikiNamespacedTiddler := {
  bound_bag : string;
  bound_tiddler : Tiddler;
  bound_revision : Revision
}.

(** [asBoundTiddler]: drops the wiki (and the title) of a record. *)
Definition asBoundTiddler (namespacedTiddler : NamespacedTiddler)
  : SingleWikiNamespacedTiddler :=
  {| bound_bag := ns_bag (namespace namespacedTiddler);
     bound_tiddler := value namespacedTiddler;
     bound_revision := revision namespacedTiddler |}.

(** Modelled from the spec: [mapOrApply] of shared/util/map, which maps a
    list-or-single result elementwise and keeps its cardinality. *)
Definition mapOrApply {A B} (f : A -> B) (x : MaybeArray A) : MaybeArray B :=
  match x with
  | Single a => Single (f a)
  | Many l => Many (map f l)
  end.

(** [BoundTiddlerStoreImpl]: the facade with [this.user] and [this.wiki]
    fixed. *)
Module BoundTiddlerStoreImpl.
Section Bound.
Context {S User : Type}.
Context `{persistenceOps : TiddlerPersistence S}.
Context `{policyChecker : PolicyChecker S User}.
Context `{recipeResolver : RecipeResolver S User}.
Context `{tiddlerFactory : TiddlerFactory User}.
Context (user : User) (wiki : string).

Definition removeFromBag (bag title' : string) (expectedRevision : Revision)
  : Async (World S) bool :=
  removeFromBag user {| ns_wiki := wiki; ns_bag := bag |} title' expectedRevision.

(** [asBoundTiddler] reads [namespacedTiddler.namespace.bag]: on the
    [undefined] that the facade's [writeToRecipe] can resolve with, that is a
    [TypeError]. *)
Definition writeToRecipe (recipe title' : string)
  (updateOrCreate : TiddlerUpdateOrCreate)
  : Async (World S) SingleWikiNamespacedTiddler :=
  let* namespacedTiddler :=
    writeToRecipe user {| recipe_wiki := wiki; recipe_name := recipe |}
                  title' updateOrCreate in
  match namespacedTiddler with
  | None => throw TypeError
  | Some namespacedTiddler => resolve (asBoundTiddler namespacedTiddler)
  end.

Definition writeToBag (bag title' : string) (updateOrCreate : TiddlerUpdateOrCreate)
  : Async (World S) SingleWikiNamespacedTiddler :=
  let* namespacedTiddler :=
    writeToBag user {| ns_wiki := wiki; ns_bag := bag |} title' updateOrCreate in
  resolve (asBoundTiddler namespacedTiddler).

Definition readFromRecipe (recipe : string) (title' : option string)
  : Async (World S) (MaybeArray SingleWikiNamespacedTiddler) :=
  let* tiddlers :=
    readFromRecipe user {| recipe_wiki := wiki; recipe_name := recipe |} title' in
  resolve (mapOrApply asBoundTiddler tiddlers).

Definition readFromBag (bag : string) (title' : option string)
  : Async (World S) (MaybeArray SingleWikiNamespacedTiddler) :=
  let* tiddlers :=
    readFromBag user {| ns_wiki := wiki; ns_bag := bag |} title' in
  resolve (mapOrApply asBoundTiddler tiddlers).

End Bound.
End BoundTiddlerStoreImpl.

(** ** A reference persistence *)

(** Modelled from the spec: the persistence engine behind
    [TiddlerPersistence] (common/persistence is not under src/), a
    transactional store of documents keyed by (wiki, bag, title), each with
    its revision. *)
Record MemoryStore := {
  docs : gmap (string * string * string) (Tiddler * Revision);
  clock : nat
}.

Definition doc_key (ns : TiddlerNamespace) (title' : string)
  : string * string * string :=
  (ns_wiki ns, ns_bag ns, title').

Definition stored (m : MemoryStore) (ns : TiddlerNamespace) (title' : string)
  : option (Tiddler * Revision) :=
  docs m !! doc_key ns title'.

Definition record_in (ns : TiddlerNamespace)
  (entry : (string * string * string) * (Tiddler * Revision))
  : option NamespacedTiddler :=
  let '((w, b, t), (v, r)) := entry in
  if decide (w = ns_wiki ns ∧ b = ns_bag ns)
  then Some {| namespace := ns; title := t; value := v; revision := r |}
  else None.

(** The records of one namespace, in the store's own order. *)
Definition collection (m : MemoryStore) (ns : TiddlerNamespace)
  : list NamespacedTiddler :=
  omap (record_in ns) (map_to_list (docs m)).

(** Modelled from the spec: the expected-revision gate of the
    compare-and-swap.  It rejects when an expected revision is supplied and
    differs from the stored one. *)
Definition revision_conflict (storedRevision expectedRevision : option Revision)
  : bool :=
  match expectedRevision, storedRevision with
  | Some e, Some s => negb (String.eqb e s)
  | _, _ => false
  end.

Section MemoryPersistence.
(** How the store stamps the revision of a write. *)
Variable mint : nat -> Revision.

(** Modelled from the spec: the single-record read, a record for each key
    that is stored. *)
Definition memory_readDocs (keys : list (TiddlerNamespace * string))
  (m : MemoryStore) : Outcome (list NamespacedTiddler) :=
  Resolved (keys ≫= fun '(ns, t) =>
    match stored m ns t with
    | Some (v, r) => [{| namespace := ns; title := t; value := v; revision := r |}]
    | None => []
    end).

(** Modelled from the spec: the multi-collection read.  It answers in the
    order of the namespaces asked for. *)
Definition memory_readCollections (namespaces : list TiddlerNamespace)
  (m : MemoryStore) : Outcome (list NamespacedTiddler) :=
  Resolved (namespaces ≫= collection m).

(** Modelled from the spec: the compare-and-swap.  Past the revision gate it
    gives the updater the current value or its absence; it stores what the
    updater yields and returns the new record, or deletes and returns
    nothing when the updater yields absence. *)
Definition memory_updateDoc {L} (ns : TiddlerNamespace) (title' : string)
  (updater : Updater L) (expectedRevision : option Revision)
  : Async (MemoryStore * L) (option NamespacedTiddler) :=
  fun '(m, l) =>
    let current := stored m ns title' in
    if revision_conflict (snd <$> current) expectedRevision then
      (Rejected (HTTPError ("Revision conflict on tiddler " +:+ title') HTTP_CONFLICT),
       (m, l))
    else
      match updater (fst <$> current) l with
      | (Rejected e, l') => (Rejected e, (m, l'))
      | (Resolved (Some v), l') =>
          let r := mint (clock m) in
          (Resolved (Some {| namespace := ns; title := title'; value := v;
                             revision := r |}),
           ({| docs := <[doc_key ns title' := (v, r)]> (docs m);
               clock := Datatypes.S (clock m) |}, l'))
      | (Resolved None, l') =>
          (Resolved None,
           ({| docs := delete (doc_key ns title') (docs m); clock := clock m |}, l'))
      end.

#[local] Instance memoryPersistence : TiddlerPersistence MemoryStore := {
  readDocs := memory_readDocs;
  readCollections := memory_readCollections;
  updateDoc := @memory_updateDoc
}.
End MemoryPersistence.

(** ** Concrete collaborators

    Table-driven collaborators over the reference persistence, used to run
    the facade on explicit scenarios. *)

Module Fixtures.

(** A policy checker that answers every intent with [decision], one
    permission per bag asked about, in order. *)
Definition fixedPolicy (decision : string -> Permission)
  : PolicyChecker MemoryStore string := {|
  verifyReadAccess := fun _ _ _ bags => Resolved (map decision bags);
  getWriteableBag := fun _ _ _ bags _ _ => Resolved (map decision bags);
  verifyRemoveAccess := fun _ _ _ bags => Resolved (map decision bags)
|}.

(** A resolver that answers every recipe with [bags]. *)
Definition fixedResolver (bags : option (list string))
  : RecipeResolver MemoryStore string := {|
  getRecipeBags := fun _ _ _ _ => Resolved bags
|}.

(** A factory that stamps the title and the creator on the fields. *)
Definition stampFactory : TiddlerFactory string := {|
  createTiddler := fun user title' type fields =>
    <["title" := VStr title']> (<["creator" := VStr user]> fields)
|}.

Definition mint (n : nat) : Revision := "r" +:+ pretty n.

Definition allowAll (bag : string) : Permission :=
  {| perm_bag := bag; allowed := true; reason := None |}.

Definition denyAll (bag : string) : Permission :=
  {| perm_bag := bag; allowed := false; reason := Some ("no " +:+ bag) |}.

(** Bag A is denied, every other bag is allowed. *)
Definition denyA (bag : string) : Permission :=
  if String.eqb bag "A" then denyAll bag else allowAll bag.

Definition text (s : string) : Tiddler := {[ "text" := VStr s ]}.

Definition recipe : NamespacedRecipe := {| recipe_wiki := "w"; recipe_name := "r" |}.

Definition bagA : TiddlerNamespace := {| ns_wiki := "w"; ns_bag := "A" |}.
Definition bagB : TiddlerNamespace := {| ns_wiki := "w"; ns_bag := "B" |}.

(** Bags A and B both hold X, with different values; B alone holds Y. *)
Definition shadowed : MemoryStore := {|
  docs := <[("w", "A", "X") := (text "a", "1")]>
          (<[("w", "B", "X") := (text "b", "2")]>
          (<[("w", "B", "Y") := (text "y", "3")]> ∅));
  clock := 0
|}.

Definition fresh {S} (m : S) : World S := {| handle := m; issued := [] |}.

Definition record (ns : TiddlerNamespace) (title' s : string) (r : Revision)
  : NamespacedTiddler :=
  {| namespace := ns; title := title'; value := text s; revision := r |}.

Definition memoryOps : TiddlerPersistence MemoryStore := memoryPersistence mint.

Definition factory : TiddlerFactory string := stampFactory.

(** A persistence that commits like the reference one but resolves its
    compare-and-swap with nothing. *)
Definition silentPersistence : TiddlerPersistence MemoryStore := {|
  readDocs := memory_readDocs;
  readCollections := memory_readCollections;
  updateDoc := fun L ns title' updater expectedRevision st =>
    match memory_updateDoc mint ns title' updater expectedRevision st with
    | (Resolved _, st') => (Resolved None, st')
    | (Rejected e, st') => (Rejected e, st')
    end
|}.

(** A policy checker that answers every intent with no permission at all. *)
Definition silentPolicy : PolicyChecker MemoryStore string := {|
  verifyReadAccess := fun _ _ _ _ => Resolved [];
  getWriteableBag := fun _ _ _ _ _ _ => Resolved [];
  verifyRemoveAccess := fun _ _ _ _ => Resolved []
|}.

End Fixtures.

(** ** Vocabulary of the statements *)

(** What a facade call throws for a recipe that did not resolve. *)
Definition recipeNotFound (namespacedRecipe : NamespacedRecipe) : Thrown :=
  HTTPError ("Recipe " +:+ recipe_name namespacedRecipe +:+ " not found in wiki " +:+
             recipe_wiki namespacedRecipe) HTTP_NOT_FOUND.

(** The truthy reasons of a permission list, joined: the aggregate that the
    recipe operations put in their message. *)
Definition reasons (permissions : list Permission) : string :=
  join ", " (map (fun p => or_empty (reason p))
                 (List.filter (fun p => truthy (reason p)) permissions)).

(** A call that rejected with an [HTTPError] of the given status. *)
Definition fails_with {St A} (status : HTTPStatus) (r : Outcome A * St) : Prop :=
  exists message, r.1 = Rejected (HTTPError message status).

(** A call that left the store as it was and issued no persistence call. *)
Definition untouched {S A} (w : World S) (r : Outcome A * World S) : Prop :=
  handle r.2 = handle w /\ issued r.2 = issued w.

(** What a successful removal reports: whether a document was stored. *)
Definition existed (m : MemoryStore) (ns : TiddlerNamespace) (title' : string) : bool :=
  match stored m ns title' with
  | Some _ => true
  | None => false
  end.

(** The persistence calls that only read. *)
Definition is_read (c : PersistenceCall) : bool :=
  match c with
  | CallUpdateDoc _ _ _ => false
  | _ => true
  end.

(** Unfolds the plumbing of a facade call down to the collaborators. *)
Ltac run_facade :=
  unfold runTransaction, await, consult, consult_with, without_locals,
    persistence_updateDoc, persistence_readCollections, persistence_readDocs,
    throw, resolve; simpl.

(** ** Properties of the pure helpers *)

Lemma deduplicate_loop_keeps_all (deduplicated tiddlers : list NamespacedTiddler) :
  deduplicate_loop ∅ deduplicated tiddlers = (deduplicated ++ tiddlers)%list.
Proof.
  revert deduplicated.
  induction tiddlers as [|tiddler rest IH]; intros deduplicated; simpl.
  - by rewrite app_nil_r.
  - destruct (decide (title tiddler ∈ (∅ : gset string))) as [Hin|_].
    + by apply not_elem_of_empty in Hin.
    + by rewrite IH, <- app_assoc.
Qed.

(** As written, [deduplicate] returns its argument. *)
Lemma deduplicate_keeps_all (tiddlers : list NamespacedTiddler) :
  deduplicate tiddlers = tiddlers.
Proof. apply deduplicate_loop_keeps_all. Qed.

Lemma assign_one_lookup (target source : gmap string Value) (field : string) :
  map_fold (fun k v acc => <[k := v]> acc) target source !! field =
  match source !! field with
  | Some v => Some v
  | None => target !! field
  end.
Proof.
  induction source as [|k v source Hk Hfirst IH] using map_first_key_ind.
  - by rewrite map_fold_empty, lookup_empty.
  - rewrite map_fold_insert_first_key by done.
    destruct (decide (k = field)) as [->|Hne].
    + by rewrite !lookup_insert_eq.
    + by rewrite !lookup_insert_ne.
Qed.

Lemma Object_assign_merge (existing update : gmap string Value) (field : string) :
  Object_assign ∅ [existing; update] !! field =
  match update !! field with
  | Some v => Some v
  | None => existing !! field
  end.
Proof.
  unfold Object_assign; simpl.
  rewrite !assign_one_lookup, lookup_empty.
  destruct (update !! field); [done|]. by destruct (existing !! field).
Qed.

Lemma find_first_allowed (denied later : list Permission) (p : Permission) :
  Forall (fun q => allowed q = false) denied ->
  allowed p = true ->
  List.find allowed (denied ++ p :: later)%list = Some p.
Proof.
  intros Hdenied Hp.
  induction Hdenied as [|q denied Hq _ IH]; simpl.
  - by rewrite Hp.
  - by rewrite Hq.
Qed.

Lemma find_none_allowed (permissions : list Permission) :
  Forall (fun q => allowed q = false) permissions ->
  List.find allowed permissions = None.
Proof.
  intros Hdenied.
  induction Hdenied as [|q denied Hq _ IH]; simpl; [done|]. by rewrite Hq.
Qed.

Lemma forallb_allowed_denied (permissions : list Permission) :
  Exists (fun q => allowed q = false) permissions ->
  forallb allowed permissions = false.
Proof.
  intros Hex.
  induction Hex as [q rest Hq|q rest _ IH]; simpl.
  - by rewrite Hq.
  - rewrite IH. apply andb_false_r.
Qed.

(** ** The updater *)

Section Updater.
Context {User : Type} `{tiddlerFactory : TiddlerFactory User}.

(** C5: the updater of an update intent rejects with BadRequest when there
    is no current document; on a current document it yields a shallow
    merge, where each top-level field of the update replaces the field of
    that name and every other top-level field of the current value is
    kept as it is. *)
Theorem getUpdater_update_shallow_merge (user : User) (title' : string)
  (update : TiddlerData) (expectedRevision : option Revision) :
  getUpdater user title' (Update update expectedRevision) None =
    Rejected (HTTPError
      ("Tiddler " +:+ title' +:+
       " received update, but no such tiddler exists in bag") HTTP_BAD_REQUEST)
  /\ forall existingTiddler : Tiddler,
      exists merged : Tiddler,
        getUpdater user title' (Update update expectedRevision)
                   (Some existingTiddler) = Resolved merged
        /\ forall field,
             merged !! field =
             match update !! field with
             | Some v => Some v
             | None => existingTiddler !! field
             end.
Proof.
  split; [done|].
  intros existingTiddler. eexists. split; [reflexivity|].
  intros field. apply Object_assign_merge.
Qed.

(** The merge is not deep: an object-valued field of the update replaces
    the whole field, and the nested entries of the current value go. *)
Lemma update_replaces_nested_field (user : User) (title' : string)
  (existingTiddler : Tiddler) (nested : list (string * Value)) :
  exists merged : Tiddler,
    getUpdater user title' (Update {[ "fields" := VObj nested ]} None)
               (Some existingTiddler) = Resolved merged
    /\ merged !! "fields" = Some (VObj nested)
    /\ forall field, field <> "fields" ->
         merged !! field = existingTiddler !! field.
Proof.
  eexists. split; [reflexivity|]. split.
  - by rewrite Object_assign_merge, lookup_singleton_eq.
  - intros field Hne. by rewrite Object_assign_merge, lookup_singleton_ne.
Qed.
End Updater.

(** ** Properties that hold for every collaborator *)

Section AnyCollaborators.
Context {S User : Type}.
Context `{persistenceOps : TiddlerPersistence S}.
Context `{policyChecker : PolicyChecker S User}.
Context `{recipeResolver : RecipeResolver S User}.
Context `{tiddlerFactory : TiddlerFactory User}.

Implicit Types (w : World S) (user : User) (ns : TiddlerNamespace).
Implicit Types (namespacedRecipe : NamespacedRecipe).
Implicit Types (updateOrCreate : TiddlerUpdateOrCreate).

Lemma reasons_map_filter (permissions : list Permission) :
  join ", " (map or_empty (List.filter truthy (map reason permissions))) =
  reasons permissions.
Proof.
  unfold reasons. f_equal.
  induction permissions as [|p rest IH]; simpl; [done|].
  destruct (truthy (reason p)); simpl; by rewrite IH.
Qed.

Lemma readFromRecipe_unresolved user namespacedRecipe title' w :
  getRecipeBags user ReadMode (handle w) namespacedRecipe = Resolved None ->
  readFromRecipe user namespacedRecipe title' w =
  (Rejected (recipeNotFound namespacedRecipe), w).
Proof. intros Hbags. unfold readFromRecipe. run_facade. by rewrite Hbags. Qed.

Lemma writeToRecipe_unresolved user namespacedRecipe title' updateOrCreate w :
  getRecipeBags user WriteMode (handle w) namespacedRecipe = Resolved None ->
  writeToRecipe user namespacedRecipe title' updateOrCreate w =
  (Rejected (recipeNotFound namespacedRecipe), w).
Proof. intros Hbags. unfold writeToRecipe. run_facade. by rewrite Hbags. Qed.

(** A recipe read with a denied bag rejects with the aggregated reasons,
    under the status [HTTP_NOT_FOUND]. *)
Lemma readFromRecipe_denied user namespacedRecipe title' w bags permissions :
  getRecipeBags user ReadMode (handle w) namespacedRecipe = Resolved (Some bags) ->
  verifyReadAccess (handle w) user (recipe_wiki namespacedRecipe) bags =
    Resolved permissions ->
  Exists (fun q => allowed q = false) permissions ->
  readFromRecipe user namespacedRecipe title' w =
  (Rejected (HTTPError
     ("At least one bag referenced by recipe " +:+ recipe_name namespacedRecipe +:+
      " in wiki " +:+ recipe_wiki namespacedRecipe +:+
      " is not readable. Errors: " +:+ reasons permissions) HTTP_NOT_FOUND), w).
Proof.
  intros Hbags Hperm Hdenied. unfold readFromRecipe. run_facade.
  rewrite Hbags, Hperm, (forallb_allowed_denied _ Hdenied); simpl.
  by rewrite reasons_map_filter.
Qed.

Lemma writeToBag_denied user ns title' updateOrCreate w p rest :
  getWriteableBag (handle w) user (ns_wiki ns) [ns_bag ns] title'
                  (getTiddlerData updateOrCreate) = Resolved (p :: rest) ->
  allowed p = false ->
  writeToBag user ns title' updateOrCreate w =
  (Rejected (HTTPError ("Tiddler write denied " +:+ or_empty (reason p))
                       HTTP_FORBIDDEN), w).
Proof.
  intros Hperm Hp. unfold writeToBag. run_facade. by rewrite Hperm, Hp.
Qed.

Lemma writeToRecipe_none_allowed user namespacedRecipe title' updateOrCreate w
  bags permissions :
  getRecipeBags user WriteMode (handle w) namespacedRecipe = Resolved (Some bags) ->
  getWriteableBag (handle w) user (recipe_wiki namespacedRecipe) bags title'
                  (getTiddlerData updateOrCreate) = Resolved permissions ->
  Forall (fun q => allowed q = false) permissions ->
  writeToRecipe user namespacedRecipe title' updateOrCreate w =
  (Rejected (HTTPError
     ("No bags in wiki " +:+ recipe_wiki namespacedRecipe +:+ " recipe " +:+
      recipe_name namespacedRecipe +:+ " found which can be written to. Errors: " +:+
      reasons permissions) HTTP_FORBIDDEN), w).
Proof.
  intros Hbags Hperm Hdenied. unfold writeToRecipe. run_facade.
  by rewrite Hbags, Hperm, (find_none_allowed _ Hdenied).
Qed.

(** With an allowed bag, a recipe write is one compare-and-swap, on the bag
    of the first allowed permission. *)
Lemma writeToRecipe_selects user namespacedRecipe title' updateOrCreate w
  bags denied p later :
  getRecipeBags user WriteMode (handle w) namespacedRecipe = Resolved (Some bags) ->
  getWriteableBag (handle w) user (recipe_wiki namespacedRecipe) bags title'
                  (getTiddlerData updateOrCreate) =
    Resolved (denied ++ p :: later)%list ->
  Forall (fun q => allowed q = false) denied ->
  allowed p = true ->
  writeToRecipe user namespacedRecipe title' updateOrCreate w =
  without_locals
    (persistence_updateDoc
       {| ns_wiki := recipe_wiki namespacedRecipe; ns_bag := perm_bag p |}
       title' (closure (getUpdater user title' updateOrCreate))
       (getExpectedRevision updateOrCreate)) w.
Proof.
  intros Hbags Hperm Hdenied Hp. unfold writeToRecipe. run_facade.
  rewrite Hbags, Hperm, (find_first_allowed _ _ _ Hdenied Hp).
  destruct (updateDoc _ _ _ _ _) as [[r|e] [s' []]]; reflexivity.
Qed.

Lemma removeFromBag_denied user ns title' expectedRevision w p rest :
  verifyRemoveAccess (handle w) user (ns_wiki ns) [ns_bag ns] = Resolved (p :: rest) ->
  allowed p = false ->
  removeFromBag user ns title' expectedRevision w =
  (Rejected (HTTPError ("Tiddler remove denied " +:+ or_empty (reason p))
                       HTTP_FORBIDDEN), w).
Proof.
  intros Hperm Hp. unfold removeFromBag. run_facade. by rewrite Hperm, Hp.
Qed.

(** When the compare-and-swap resolves with nothing, [writeToBag] rejects
    with its internal error... *)
Lemma writeToBag_null_result user ns title' updateOrCreate w p rest s' :
  getWriteableBag (handle w) user (ns_wiki ns) [ns_bag ns] title'
                  (getTiddlerData updateOrCreate) = Resolved (p :: rest) ->
  allowed p = true ->
  updateDoc ns title' (closure (getUpdater user title' updateOrCreate))
            (getExpectedRevision updateOrCreate) (handle w, tt) =
    (Resolved None, (s', tt)) ->
  (writeToBag user ns title' updateOrCreate w).1 =
  Rejected (Error "Result of write transaction should not be null").
Proof.
  intros Hperm Hp Hcas. unfold writeToBag. run_facade.
  by rewrite Hperm, Hp, Hcas.
Qed.

(** ... and [writeToRecipe] resolves with nothing. *)
Lemma writeToRecipe_null_result user namespacedRecipe title' updateOrCreate w
  bags denied p later s' :
  getRecipeBags user WriteMode (handle w) namespacedRecipe = Resolved (Some bags) ->
  getWriteableBag (handle w) user (recipe_wiki namespacedRecipe) bags title'
                  (getTiddlerData updateOrCreate) =
    Resolved (denied ++ p :: later)%list ->
  Forall (fun q => allowed q = false) denied ->
  allowed p = true ->
  updateDoc {| ns_wiki := recipe_wiki namespacedRecipe; ns_bag := perm_bag p |}
            title' (closure (getUpdater user title' updateOrCreate))
            (getExpectedRevision updateOrCreate) (handle w, tt) =
    (Resolved None, (s', tt)) ->
  (writeToRecipe user namespacedRecipe title' updateOrCreate w).1 = Resolved None.
Proof.
  intros Hbags Hperm Hdenied Hp Hcas.
  rewrite (writeToRecipe_selects _ _ _ _ _ _ _ _ _ Hbags Hperm Hdenied Hp).
  run_facade. by rewrite Hcas.
Qed.

(** An allowed removal returns what its updater last assigned to
    [tiddlerExisted], whatever the persistence is. *)
Lemma removeFromBag_returns_observation user ns title' expectedRevision w p rest
  txResult s' tiddlerExisted :
  verifyRemoveAccess (handle w) user (ns_wiki ns) [ns_bag ns] = Resolved (p :: rest) ->
  allowed p = true ->
  updateDoc ns title' removeUpdater (Some expectedRevision) (handle w, false) =
    (Resolved txResult, (s', tiddlerExisted)) ->
  (removeFromBag user ns title' expectedRevision w).1 = Resolved tiddlerExisted.
Proof.
  intros Hperm Hp Hcas. unfold removeFromBag. run_facade.
  by rewrite Hperm, Hp, Hcas.
Qed.

(** C4 (amended): when the recipe resolver answers with the absent
    sentinel, [readFromRecipe] and [writeToRecipe] reject with NotFound,
    "Recipe ... not found in wiki ...", and nothing else happens. *)
Theorem unresolved_recipe_NotFound user namespacedRecipe title' wtitle
  updateOrCreate w :
  (getRecipeBags user ReadMode (handle w) namespacedRecipe = Resolved None ->
   readFromRecipe user namespacedRecipe title' w =
   (Rejected (recipeNotFound namespacedRecipe), w))
  /\ (getRecipeBags user WriteMode (handle w) namespacedRecipe = Resolved None ->
      writeToRecipe user namespacedRecipe wtitle updateOrCreate w =
      (Rejected (recipeNotFound namespacedRecipe), w)).
Proof.
  split; intros Hbags.
  - by apply readFromRecipe_unresolved.
  - by apply writeToRecipe_unresolved.
Qed.

(** C10: a [writeToBag], [writeToRecipe] or [removeFromBag] call whose
    permission is denied (Forbidden) or whose recipe does not resolve
    (NotFound) rejects before any persistence call: no [updateDoc] is
    issued and the store is the one the call started with. *)
Theorem failed_check_issues_no_updateDoc user ns namespacedRecipe title'
  updateOrCreate expectedRevision w :
  (forall p rest,
      getWriteableBag (handle w) user (ns_wiki ns) [ns_bag ns] title'
                      (getTiddlerData updateOrCreate) = Resolved (p :: rest) ->
      allowed p = false ->
      fails_with HTTP_FORBIDDEN (writeToBag user ns title' updateOrCreate w)
      /\ untouched w (writeToBag user ns title' updateOrCreate w))
  /\ (getRecipeBags user WriteMode (handle w) namespacedRecipe = Resolved None ->
      fails_with HTTP_NOT_FOUND
        (writeToRecipe user namespacedRecipe title' updateOrCreate w)
      /\ untouched w (writeToRecipe user namespacedRecipe title' updateOrCreate w))
  /\ (forall bags permissions,
      getRecipeBags user WriteMode (handle w) namespacedRecipe =
        Resolved (Some bags) ->
      getWriteableBag (handle w) user (recipe_wiki namespacedRecipe) bags title'
                      (getTiddlerData updateOrCreate) = Resolved permissions ->
      Forall (fun q => allowed q = false) permissions ->
      fails_with HTTP_FORBIDDEN
        (writeToRecipe user namespacedRecipe title' updateOrCreate w)
      /\ untouched w (writeToRecipe user namespacedRecipe title' updateOrCreate w))
  /\ (forall p rest,
      verifyRemoveAccess (handle w) user (ns_wiki ns) [ns_bag ns] =
        Resolved (p :: rest) ->
      allowed p = false ->
      fails_with HTTP_FORBIDDEN (removeFromBag user ns title' expectedRevision w)
      /\ untouched w (removeFromBag user ns title' expectedRevision w)).
Proof.
  unfold fails_with, untouched.
  split; [|split; [|split]].
  - intros p rest Hperm Hp.
    rewrite (writeToBag_denied _ _ _ _ _ _ _ Hperm Hp). eauto.
  - intros Hbags. rewrite (writeToRecipe_unresolved _ _ _ _ _ Hbags).
    unfold recipeNotFound. eauto.
  - intros bags permissions Hbags Hperm Hdenied.
    rewrite (writeToRecipe_none_allowed _ _ _ _ _ _ _ Hbags Hperm Hdenied). eauto.
  - intros p rest Hperm Hp.
    rewrite (removeFromBag_denied _ _ _ _ _ _ _ Hperm Hp). eauto.
Qed.

End AnyCollaborators.

(** ** Properties over the reference persistence *)

Lemma find_app_first {A} (f : A -> bool) (l1 l2 : list A) :
  List.find f (l1 ++ l2)%list =
  match List.find f l1 with
  | Some x => Some x
  | None => List.find f l2
  end.
Proof.
  induction l1 as [|x l1 IH]; simpl; [done|]. by destruct (f x).
Qed.

Lemma getFirst_app (l1 l2 : list NamespacedTiddler) (title' : string) :
  getFirst (l1 ++ l2)%list title' =
  match getFirst l1 title' with
  | Some record => Some record
  | None => getFirst l2 title'
  end.
Proof. apply find_app_first. Qed.

(** The records of a collection are the stored documents of its namespace. *)
Lemma elem_of_collection (m : MemoryStore) (ns : TiddlerNamespace)
  (record : NamespacedTiddler) :
  record ∈ collection m ns <->
  namespace record = ns /\
  stored m ns (title record) = Some (value record, revision record).
Proof.
  unfold collection, stored, doc_key. rewrite list_elem_of_omap. split.
  - intros [[[[w b] t] [v r]] [Hin Hrec]].
    apply elem_of_map_to_list in Hin. simpl in Hrec.
    destruct (decide (w = ns_wiki ns /\ b = ns_bag ns)) as [[-> ->]|_]; [|done].
    by injection Hrec as <-.
  - intros [Hns Hdoc]. destruct record as [ns' t v r]; simpl in *. subst ns'.
    exists ((ns_wiki ns, ns_bag ns, t), (v, r)). split.
    + by apply elem_of_map_to_list.
    + simpl. destruct (decide (ns_wiki ns = ns_wiki ns /\ ns_bag ns = ns_bag ns))
        as [_|Hne]; [done|]. by destruct Hne.
Qed.

Lemma getFirst_collection_absent (m : MemoryStore) (ns : TiddlerNamespace)
  (title' : string) :
  stored m ns title' = None ->
  getFirst (collection m ns) title' = None.
Proof.
  intros Habsent. unfold getFirst.
  destruct (List.find _ _) as [record|] eqn:Hfind; [|done].
  apply find_some in Hfind as [Hin Htitle].
  apply list_elem_of_In, elem_of_collection in Hin as [_ Hdoc].
  apply String.eqb_eq in Htitle. subst title'. by rewrite Habsent in Hdoc.
Qed.

Lemma getFirst_collection_present (m : MemoryStore) (ns : TiddlerNamespace)
  (title' : string) (v : Tiddler) (r : Revision) :
  stored m ns title' = Some (v, r) ->
  getFirst (collection m ns) title' =
  Some {| namespace := ns; title := title'; value := v; revision := r |}.
Proof.
  intros Hdoc. unfold getFirst.
  destruct (List.find _ _) as [record|] eqn:Hfind.
  - apply find_some in Hfind as [Hin Htitle].
    apply list_elem_of_In, elem_of_collection in Hin as [Hns Hrec].
    apply String.eqb_eq in Htitle. destruct record as [ns' t v' r']; simpl in *.
    subst. rewrite Hdoc in Hrec. by injection Hrec as <- <-.
  - exfalso.
    pose (record := {| namespace := ns; title := title'; value := v; revision := r |}).
    assert (Hin : record ∈ collection m ns) by by apply elem_of_collection.
    apply list_elem_of_In in Hin.
    apply (find_none _ _ Hfind) in Hin. simpl in Hin.
    by rewrite String.eqb_refl in Hin.
Qed.

Section ReadOrder.
Context (m : MemoryStore) (wiki title' : string).

Let at_bag (bag : string) : TiddlerNamespace := {| ns_wiki := wiki; ns_bag := bag |}.

(** Reading the bags in order and taking the first match finds the record
    of the first bag that stores the title. *)
Lemma getFirst_first_bag (before after : list string) (b : string)
  (v : Tiddler) (r : Revision) :
  (forall a, a ∈ before -> stored m (at_bag a) title' = None) ->
  stored m (at_bag b) title' = Some (v, r) ->
  getFirst (map at_bag (before ++ b :: after) ≫= collection m) title' =
  Some {| namespace := at_bag b; title := title'; value := v; revision := r |}.
Proof.
  intros Hbefore Hb.
  induction before as [|a before IH]; simpl.
  - by rewrite getFirst_app, (getFirst_collection_present _ _ _ _ _ Hb).
  - rewrite getFirst_app, (getFirst_collection_absent m (at_bag a) title').
    + apply IH. intros a' Ha'. apply Hbefore. by right.
    + apply Hbefore. by left.
Qed.

Lemma getFirst_no_bag (bags : list string) :
  (forall b, b ∈ bags -> stored m (at_bag b) title' = None) ->
  getFirst (map at_bag bags ≫= collection m) title' = None.
Proof.
  intros Hnone.
  induction bags as [|b bags IH]; simpl; [done|].
  rewrite getFirst_app, (getFirst_collection_absent m (at_bag b) title').
  - apply IH. intros b' Hb'. apply Hnone. by right.
  - apply Hnone. by left.
Qed.
End ReadOrder.

Section OverMemoryStore.
Context {User : Type} (mint : nat -> Revision).
Context `{policyChecker : PolicyChecker MemoryStore User}.
Context `{recipeResolver : RecipeResolver MemoryStore User}.
Context `{tiddlerFactory : TiddlerFactory User}.

Let memoryOps : TiddlerPersistence MemoryStore := memoryPersistence mint.
#[local] Existing Instance memoryOps.

Implicit Types (w : World MemoryStore) (user : User) (ns : TiddlerNamespace).
Implicit Types (namespacedRecipe : NamespacedRecipe).
Implicit Types (updateOrCreate : TiddlerUpdateOrCreate).

(** C9: the updater of [removeFromBag] always yields absence, and an
    allowed removal that the revision gate lets through returns whether a
    document was stored just before it, deletes it, and leaves the store
    as it was when there was none. *)
Theorem removeFromBag_reports_existence user ns title' expectedRevision w p rest :
  (forall tiddler l,
      removeUpdater tiddler l =
      (Resolved None, match tiddler with Some _ => true | None => false end))
  /\ (verifyRemoveAccess (handle w) user (ns_wiki ns) [ns_bag ns] =
        Resolved (p :: rest) ->
      allowed p = true ->
      revision_conflict (snd <$> stored (handle w) ns title') (Some expectedRevision)
        = false ->
      exists w',
        removeFromBag user ns title' expectedRevision w =
          (Resolved (existed (handle w) ns title'), w')
        /\ stored (handle w') ns title' = None
        /\ (existed (handle w) ns title' = false -> handle w' = handle w)).
Proof.
  split; [by intros [tiddler|] l|].
  intros Hperm Hp Hgate. unfold removeFromBag. run_facade.
  rewrite Hperm, Hp. simpl. simpl in Hgate. rewrite Hgate.
  eexists. split; [|split]; simpl.
  - unfold existed. by destruct (stored (handle w) ns title').
  - unfold stored; simpl. apply lookup_delete_eq.
  - unfold existed, stored. destruct (handle w) as [d c]; simpl.
    destruct (d !! doc_key ns title') eqn:Hdoc; [done|].
    intros _. by rewrite delete_id.
Qed.

(** C8 (amended): a recipe read with a non-empty title, all resolved bags
    readable, returns the record of the earliest bag in resolution order
    that stores the title, and rejects with NotFound when no resolved bag
    stores it.  The empty string is tested as no title ([if (title)]). *)
Theorem readFromRecipe_title_first_match user namespacedRecipe title' w
  bags permissions :
  getRecipeBags user ReadMode (handle w) namespacedRecipe = Resolved (Some bags) ->
  verifyReadAccess (handle w) user (recipe_wiki namespacedRecipe) bags =
    Resolved permissions ->
  forallb allowed permissions = true ->
  title' <> "" ->
  (forall before b after v r,
      bags = (before ++ b :: after)%list ->
      (forall a, a ∈ before ->
         stored (handle w)
           {| ns_wiki := recipe_wiki namespacedRecipe; ns_bag := a |} title' = None) ->
      stored (handle w)
        {| ns_wiki := recipe_wiki namespacedRecipe; ns_bag := b |} title' =
        Some (v, r) ->
      (readFromRecipe user namespacedRecipe (Some title') w).1 =
      Resolved (Single
        {| namespace := {| ns_wiki := recipe_wiki namespacedRecipe; ns_bag := b |};
           title := title'; value := v; revision := r |}))
  /\ ((forall b, b ∈ bags ->
         stored (handle w)
           {| ns_wiki := recipe_wiki namespacedRecipe; ns_bag := b |} title' = None) ->
      (readFromRecipe user namespacedRecipe (Some title') w).1 =
      Rejected (HTTPError
        ("Tiddler " +:+ title' +:+ " not found in wiki " +:+
         recipe_wiki namespacedRecipe +:+ " recipe " +:+
         recipe_name namespacedRecipe) HTTP_NOT_FOUND)).
Proof.
  intros Hbags Hperm Hall Htitle.
  assert (Htruthy : truthy (Some title') = true).
  { simpl. by apply negb_true_iff, String.eqb_neq. }
  split.
  - intros before b after v r -> Hbefore Hb.
    unfold readFromRecipe. run_facade.
    rewrite Hbags, Hperm, Hall. simpl.
    apply negb_true_iff in Htruthy as ->. simpl.
    by rewrite (getFirst_first_bag _ _ _ _ _ _ _ _ Hbefore Hb).
  - intros Hnone.
    unfold readFromRecipe. run_facade.
    rewrite Hbags, Hperm, Hall. simpl.
    apply negb_true_iff in Htruthy as ->. simpl.
    by rewrite (getFirst_no_bag _ _ _ _ Hnone).
Qed.

(** What one compare-and-swap issued by the facade does to the store. *)
Lemma memory_write_cases ns title' (f : option Tiddler -> Outcome Tiddler)
  (expectedRevision : option Revision) w :
  let r := without_locals
             (persistence_updateDoc ns title' (closure f) expectedRevision) w in
  issued r.2 = (issued w ++ [CallUpdateDoc ns title' expectedRevision])%list
  /\ (forall key, key <> doc_key ns title' ->
        docs (handle r.2) !! key = docs (handle w) !! key)
  /\ (forall record, r.1 = Resolved (Some record) ->
        namespace record = ns /\ title record = title' /\
        stored (handle r.2) ns title' = Some (value record, revision record))
  /\ (revision_conflict (snd <$> stored (handle w) ns title') expectedRevision
        = false ->
      forall t, f (fst <$> stored (handle w) ns title') = Resolved t ->
        r.1 = Resolved (Some {| namespace := ns; title := title'; value := t;
                                revision := mint (clock (handle w)) |})
        /\ stored (handle r.2) ns title' = Some (t, mint (clock (handle w)))).
Proof.
  run_facade. unfold closure.
  destruct (revision_conflict _ _) eqn:Hgate; simpl.
  { repeat split; try done. }
  destruct (f (fst <$> stored (handle w) ns title')) as [t|e] eqn:Hf; simpl.
  - split; [done|]. split; [|split].
    + intros key Hkey. by rewrite lookup_insert_ne.
    + intros record [= <-]. repeat split.
      unfold stored; simpl. apply lookup_insert_eq.
    + intros _ t' [= <-]. split; [done|].
      unfold stored; simpl. apply lookup_insert_eq.
  - repeat split; try done.
Qed.

(** C6: the updater of a create intent yields the factory's value for
    (user, title, declared type, creation fields) whatever the current
    value, and an allowed [writeToBag] with a create intent stores that
    value under the title, replacing what was there, and returns it. *)
Theorem create_builds_factory_value user ns title' create w p rest :
  let built := createTiddler user title' (create !! "type") create in
  (forall existingTiddler,
      getUpdater user title' (Create create) existingTiddler = Resolved built)
  /\ (getWriteableBag (handle w) user (ns_wiki ns) [ns_bag ns] title'
                      (getTiddlerData (Create create)) = Resolved (p :: rest) ->
      allowed p = true ->
      exists w',
        writeToBag user ns title' (Create create) w =
        (Resolved {| namespace := ns; title := title'; value := built;
                     revision := mint (clock (handle w)) |}, w')
        /\ stored (handle w') ns title' = Some (built, mint (clock (handle w)))
        /\ forall key, key <> doc_key ns title' ->
             docs (handle w') !! key = docs (handle w) !! key).
Proof.
  intros built. split; [done|].
  intros Hperm Hp. simpl in Hperm. unfold writeToBag. run_facade.
  rewrite Hperm, Hp. simpl.
  eexists. split; [reflexivity|]. split; simpl.
  - unfold stored; simpl. apply lookup_insert_eq.
  - intros key Hkey. by rewrite lookup_insert_ne.
Qed.

(** C7: with a non-empty resolution whose permissions are parallel to the
    resolved bags, [writeToRecipe] is one compare-and-swap on the first bag
    in resolution order whose write permission is allowed: no document
    outside that bag and title changes, the returned record reports that
    bag, and the value the updater yields is what is stored there.  When
    no permission is allowed the call rejects with Forbidden and the joined
    reasons of the permissions. *)
Theorem writeToRecipe_first_writable user namespacedRecipe title' updateOrCreate w
  bags permissions :
  getRecipeBags user WriteMode (handle w) namespacedRecipe = Resolved (Some bags) ->
  getWriteableBag (handle w) user (recipe_wiki namespacedRecipe) bags title'
                  (getTiddlerData updateOrCreate) = Resolved permissions ->
  map perm_bag permissions = bags ->
  (forall denied p later,
      permissions = (denied ++ p :: later)%list ->
      Forall (fun q => allowed q = false) denied ->
      allowed p = true ->
      let target :=
        {| ns_wiki := recipe_wiki namespacedRecipe; ns_bag := perm_bag p |} in
      let r := writeToRecipe user namespacedRecipe title' updateOrCreate w in
      bags = (map perm_bag denied ++ perm_bag p :: map perm_bag later)%list
      /\ issued r.2 =
         (issued w ++
          [CallUpdateDoc target title' (getExpectedRevision updateOrCreate)])%list
      /\ (forall key, key <> doc_key target title' ->
            docs (handle r.2) !! key = docs (handle w) !! key)
      /\ (forall record, r.1 = Resolved (Some record) ->
            namespace record = target /\ title record = title' /\
            stored (handle r.2) target title' = Some (value record, revision record))
      /\ (revision_conflict (snd <$> stored (handle w) target title')
                            (getExpectedRevision updateOrCreate) = false ->
          forall t,
            getUpdater user title' updateOrCreate
                       (fst <$> stored (handle w) target title') = Resolved t ->
            r.1 = Resolved (Some {| namespace := target; title := title';
                                    value := t;
                                    revision := mint (clock (handle w)) |})
            /\ stored (handle r.2) target title' =
               Some (t, mint (clock (handle w)))))
  /\ (Forall (fun q => allowed q = false) permissions ->
      writeToRecipe user namespacedRecipe title' updateOrCreate w =
      (Rejected (HTTPError
         ("No bags in wiki " +:+ recipe_wiki namespacedRecipe +:+ " recipe " +:+
          recipe_name namespacedRecipe +:+
          " found which can be written to. Errors: " +:+ reasons permissions)
         HTTP_FORBIDDEN), w)).
Proof.
  intros Hbags Hperm Hparallel. split.
  - intros denied p later -> Hdenied Hp target r.
    split.
    { by rewrite <- Hparallel, map_app. }
    subst r.
    rewrite (writeToRecipe_selects _ _ _ _ _ _ _ _ _ Hbags Hperm Hdenied Hp).
    apply memory_write_cases.
  - intros Hdenied. by apply writeToRecipe_none_allowed with (bags := bags).
Qed.

End OverMemoryStore.

(** ** Scenarios

    The facade run on explicit stores and collaborators. *)

Section Scenarios.
Import Fixtures.

(** C1: recipe r resolves to [A, B], both readable; A and B both store X and
    B alone stores Y.  [readFromRecipe] without a title returns three
    records, two of them titled X: B's X is not shadowed by A's. *)
Theorem readFromRecipe_keeps_shadowed_title :
  (readFromRecipe (persistenceOps := memoryOps)
     (policyChecker := fixedPolicy allowAll)
     (recipeResolver := fixedResolver (Some ["A"; "B"]))
     "alice" recipe None (fresh shadowed)).1 =
  Resolved (Many [record bagA "X" "a" "1"; record bagB "Y" "y" "3";
                  record bagB "X" "b" "2"]).
Proof. vm_compute. reflexivity. Qed.

(** C2: recipe r resolves to [A, B] and the read of A is denied with reason
    "no A".  [readFromRecipe] rejects with the reasons in its message, and
    with the status [HTTP_NOT_FOUND]. *)
Theorem readFromRecipe_denied_is_NotFound :
  readFromRecipe (persistenceOps := memoryOps)
    (policyChecker := fixedPolicy denyA)
    (recipeResolver := fixedResolver (Some ["A"; "B"]))
    "alice" recipe None (fresh shadowed) =
  (Rejected (HTTPError
     "At least one bag referenced by recipe r in wiki w is not readable. Errors: no A"
     HTTP_NOT_FOUND), fresh shadowed).
Proof. vm_compute. reflexivity. Qed.

(** C3: over a persistence whose compare-and-swap commits and resolves with
    nothing, [writeToBag] rejects with its internal error, and
    [writeToRecipe] resolves with nothing. *)
Theorem writeToRecipe_resolves_with_nothing :
  (writeToBag (persistenceOps := silentPersistence)
     (policyChecker := fixedPolicy allowAll) (tiddlerFactory := factory)
     "alice" bagA "X" (Update (text "z") (Some "1")) (fresh shadowed)).1 =
  Rejected (Error "Result of write transaction should not be null")
  /\ (writeToRecipe (persistenceOps := silentPersistence)
        (policyChecker := fixedPolicy allowAll)
        (recipeResolver := fixedResolver (Some ["A"; "B"]))
        (tiddlerFactory := factory)
        "alice" recipe "X" (Update (text "z") (Some "1")) (fresh shadowed)).1 =
     Resolved None.
Proof. split; vm_compute; reflexivity. Qed.

(** C4, as stated, fails: when the resolver answers with the empty list,
    [writeToRecipe] rejects with Forbidden and [readFromRecipe] without a
    title resolves with the empty list; neither is NotFound. *)
Lemma empty_resolution_is_not_NotFound :
  getRecipeBags (RecipeResolver := fixedResolver (Some []))
    "alice" WriteMode shadowed recipe = Resolved (Some [])
  /\ writeToRecipe (persistenceOps := memoryOps)
       (policyChecker := fixedPolicy allowAll)
       (recipeResolver := fixedResolver (Some [])) (tiddlerFactory := factory)
       "alice" recipe "X" (Create (text "z")) (fresh shadowed) =
     (Rejected (HTTPError
        "No bags in wiki w recipe r found which can be written to. Errors: "
        HTTP_FORBIDDEN), fresh shadowed)
  /\ ~ fails_with HTTP_NOT_FOUND
       (writeToRecipe (persistenceOps := memoryOps)
          (policyChecker := fixedPolicy allowAll)
          (recipeResolver := fixedResolver (Some [])) (tiddlerFactory := factory)
          "alice" recipe "X" (Create (text "z")) (fresh shadowed))
  /\ (readFromRecipe (persistenceOps := memoryOps)
        (policyChecker := fixedPolicy allowAll)
        (recipeResolver := fixedResolver (Some []))
        "alice" recipe None (fresh shadowed)).1 = Resolved (Many [])
  /\ ~ fails_with HTTP_NOT_FOUND
       (readFromRecipe (persistenceOps := memoryOps)
          (policyChecker := fixedPolicy allowAll)
          (recipeResolver := fixedResolver (Some []))
          "alice" recipe None (fresh shadowed)).
Proof.
  split; [reflexivity|]. split; [vm_compute; reflexivity|].
  split; [intros [message Hfail]; vm_compute in Hfail; discriminate|].
  split; [vm_compute; reflexivity|].
  intros [message Hfail]; vm_compute in Hfail; discriminate.
Qed.

(** *** The general statements at work *)

Lemma unresolved_recipe_NotFound_witness :
  readFromRecipe (persistenceOps := memoryOps)
    (policyChecker := fixedPolicy allowAll) (recipeResolver := fixedResolver None)
    "alice" recipe (Some "X") (fresh shadowed) =
  (Rejected (recipeNotFound recipe), fresh shadowed)
  /\ writeToRecipe (persistenceOps := memoryOps)
       (policyChecker := fixedPolicy allowAll) (recipeResolver := fixedResolver None)
       (tiddlerFactory := factory)
       "alice" recipe "X" (Create (text "z")) (fresh shadowed) =
     (Rejected (recipeNotFound recipe), fresh shadowed).
Proof.
  destruct (unresolved_recipe_NotFound (persistenceOps := memoryOps)
              (policyChecker := fixedPolicy allowAll)
              (recipeResolver := fixedResolver None) (tiddlerFactory := factory)
              "alice" recipe (Some "X") "X" (Create (text "z")) (fresh shadowed))
    as [Hread Hwrite].
  split; [apply Hread|apply Hwrite]; reflexivity.
Defined.

Lemma failed_check_issues_no_updateDoc_witness :
  untouched (fresh shadowed)
    (writeToBag (persistenceOps := memoryOps) (policyChecker := fixedPolicy denyAll)
       (tiddlerFactory := factory)
       "alice" bagA "X" (Create (text "z")) (fresh shadowed))
  /\ untouched (fresh shadowed)
       (writeToRecipe (persistenceOps := memoryOps)
          (policyChecker := fixedPolicy denyAll)
          (recipeResolver := fixedResolver None) (tiddlerFactory := factory)
          "alice" recipe "X" (Create (text "z")) (fresh shadowed))
  /\ untouched (fresh shadowed)
       (writeToRecipe (persistenceOps := memoryOps)
          (policyChecker := fixedPolicy denyAll)
          (recipeResolver := fixedResolver (Some ["A"; "B"]))
          (tiddlerFactory := factory)
          "alice" recipe "X" (Create (text "z")) (fresh shadowed))
  /\ untouched (fresh shadowed)
       (removeFromBag (persistenceOps := memoryOps)
          (policyChecker := fixedPolicy denyAll)
          "alice" bagA "X" "1" (fresh shadowed)).
Proof.
  destruct (failed_check_issues_no_updateDoc (persistenceOps := memoryOps)
              (policyChecker := fixedPolicy denyAll)
              (recipeResolver := fixedResolver None) (tiddlerFactory := factory)
              "alice" bagA recipe "X" (Create (text "z")) "1" (fresh shadowed))
    as (Hbag & Hunresolved & _ & Hremove).
  destruct (failed_check_issues_no_updateDoc (persistenceOps := memoryOps)
              (policyChecker := fixedPolicy denyAll)
              (recipeResolver := fixedResolver (Some ["A"; "B"]))
              (tiddlerFactory := factory)
              "alice" bagA recipe "X" (Create (text "z")) "1" (fresh shadowed))
    as (_ & _ & Hnone & _).
  split; [|split; [|split]].
  - apply (Hbag (denyAll "A") []); reflexivity.
  - apply Hunresolved; reflexivity.
  - apply (Hnone ["A"; "B"] [denyAll "A"; denyAll "B"]);
      [reflexivity|reflexivity|].
    repeat constructor.
  - apply (Hremove (denyAll "A") []); reflexivity.
Defined.

Lemma create_builds_factory_value_witness :
  exists w',
    writeToBag (persistenceOps := memoryOps) (policyChecker := fixedPolicy allowAll)
      (tiddlerFactory := factory)
      "alice" bagA "X" (Create (text "z")) (fresh shadowed) =
    (Resolved {| namespace := bagA; title := "X";
                 value := createTiddler (TiddlerFactory := factory)
                            "alice" "X" (text "z" !! "type") (text "z");
                 revision := mint 0 |}, w')
    /\ stored (handle w') bagA "X" =
       Some (createTiddler (TiddlerFactory := factory)
               "alice" "X" (text "z" !! "type") (text "z"), mint 0)
    /\ forall key, key <> doc_key bagA "X" ->
         docs (handle w') !! key = docs shadowed !! key.
Proof.
  destruct (create_builds_factory_value mint (policyChecker := fixedPolicy allowAll)
              (tiddlerFactory := factory)
              "alice" bagA "X" (text "z") (fresh shadowed) (allowAll "A") [])
    as [_ Hwrite].
  apply Hwrite; reflexivity.
Defined.

Lemma writeToRecipe_first_writable_witness :
  (let r := writeToRecipe (persistenceOps := memoryOps)
              (policyChecker := fixedPolicy denyA)
              (recipeResolver := fixedResolver (Some ["A"; "B"]))
              (tiddlerFactory := factory)
              "alice" recipe "X" (Update (text "z") (Some "2")) (fresh shadowed) in
   issued r.2 = [CallUpdateDoc bagB "X" (Some "2")]
   /\ (forall key, key <> doc_key bagB "X" ->
         docs (handle r.2) !! key = docs shadowed !! key)
   /\ (forall record, r.1 = Resolved (Some record) ->
         namespace record = bagB /\ title record = "X" /\
         stored (handle r.2) bagB "X" = Some (value record, revision record)))
  /\ writeToRecipe (persistenceOps := memoryOps)
       (policyChecker := fixedPolicy denyAll)
       (recipeResolver := fixedResolver (Some ["A"; "B"]))
       (tiddlerFactory := factory)
       "alice" recipe "X" (Update (text "z") (Some "2")) (fresh shadowed) =
     (Rejected (HTTPError
        ("No bags in wiki w recipe r found which can be written to. Errors: " +:+
         reasons [denyAll "A"; denyAll "B"]) HTTP_FORBIDDEN), fresh shadowed).
Proof.
  split.
  - destruct (writeToRecipe_first_writable mint (policyChecker := fixedPolicy denyA)
                (recipeResolver := fixedResolver (Some ["A"; "B"]))
                (tiddlerFactory := factory)
                "alice" recipe "X" (Update (text "z") (Some "2")) (fresh shadowed)
                ["A"; "B"] [denyAll "A"; allowAll "B"]
                eq_refl eq_refl eq_refl) as [Hfirst _].
    destruct (Hfirst [denyAll "A"] (allowAll "B") [])
      as (_ & Hissued & Hothers & Hrecord & _);
      [reflexivity|by repeat constructor|reflexivity|].
    intros r. split; [exact Hissued|]. split; [exact Hothers|exact Hrecord].
  - destruct (writeToRecipe_first_writable mint (policyChecker := fixedPolicy denyAll)
                (recipeResolver := fixedResolver (Some ["A"; "B"]))
                (tiddlerFactory := factory)
                "alice" recipe "X" (Update (text "z") (Some "2")) (fresh shadowed)
                ["A"; "B"] [denyAll "A"; denyAll "B"]
                eq_refl eq_refl eq_refl) as [_ Hnone].
    apply Hnone. by repeat constructor.
Defined.

Lemma readFromRecipe_title_first_match_witness :
  (readFromRecipe (persistenceOps := memoryOps)
     (policyChecker := fixedPolicy allowAll)
     (recipeResolver := fixedResolver (Some ["A"; "B"]))
     "alice" recipe (Some "X") (fresh shadowed)).1 =
  Resolved (Single (record bagA "X" "a" "1"))
  /\ (readFromRecipe (persistenceOps := memoryOps)
        (policyChecker := fixedPolicy allowAll)
        (recipeResolver := fixedResolver (Some ["A"; "B"]))
        "alice" recipe (Some "Z") (fresh shadowed)).1 =
     Rejected (HTTPError "Tiddler Z not found in wiki w recipe r" HTTP_NOT_FOUND).
Proof.
  split.
  - destruct (readFromRecipe_title_first_match mint
                (policyChecker := fixedPolicy allowAll)
                (recipeResolver := fixedResolver (Some ["A"; "B"]))
                "alice" recipe "X" (fresh shadowed) ["A"; "B"]
                [allowAll "A"; allowAll "B"] eq_refl eq_refl eq_refl)
      as [Hfound _]; [discriminate|].
    apply (Hfound [] "A" ["B"] (text "a") "1"); [reflexivity| |vm_compute; reflexivity].
    intros a Ha. inversion Ha.
  - destruct (readFromRecipe_title_first_match mint
                (policyChecker := fixedPolicy allowAll)
                (recipeResolver := fixedResolver (Some ["A"; "B"]))
                "alice" recipe "Z" (fresh shadowed) ["A"; "B"]
                [allowAll "A"; allowAll "B"] eq_refl eq_refl eq_refl)
      as [_ Hmissing]; [discriminate|].
    apply Hmissing. intros b Hb.
    apply list_elem_of_In in Hb. simpl in Hb.
    destruct Hb as [<-|[<-|[]]]; vm_compute; reflexivity.
Defined.

Lemma removeFromBag_reports_existence_witness :
  (exists w',
      removeFromBag (persistenceOps := memoryOps)
        (policyChecker := fixedPolicy allowAll)
        "alice" bagA "X" "1" (fresh shadowed) = (Resolved true, w')
      /\ stored (handle w') bagA "X" = None)
  /\ (exists w',
      removeFromBag (persistenceOps := memoryOps)
        (policyChecker := fixedPolicy allowAll)
        "alice" bagA "Z" "1" (fresh shadowed) = (Resolved false, w')
      /\ handle w' = shadowed).
Proof.
  split.
  - destruct (removeFromBag_reports_existence mint
                (policyChecker := fixedPolicy allowAll)
                "alice" bagA "X" "1" (fresh shadowed) (allowAll "A") [])
      as [_ Hremove].
    destruct Hremove as (w' & Hcall & Hgone & _);
      [reflexivity|reflexivity|vm_compute; reflexivity|].
    exists w'. split; [exact Hcall|exact Hgone].
  - destruct (removeFromBag_reports_existence mint
                (policyChecker := fixedPolicy allowAll)
                "alice" bagA "Z" "1" (fresh shadowed) (allowAll "A") [])
      as [_ Hremove].
    destruct Hremove as (w' & Hcall & _ & Hsame);
      [reflexivity|reflexivity|vm_compute; reflexivity|].
    exists w'. split; [exact Hcall|]. apply Hsame. vm_compute; reflexivity.
Defined.

End Scenarios.

(** ** Further properties of the pure helpers *)

(** [getFirst] answers with the first record of the title: it is in the
    list, it has the title, and no record before it has. *)
Theorem getFirst_Some_first (tiddlers : list NamespacedTiddler) (title' : string)
  (record : NamespacedTiddler) :
  getFirst tiddlers title' = Some record <->
  exists before after,
    tiddlers = (before ++ record :: after)%list
    /\ title record = title'
    /\ Forall (fun t => title t <> title') before.
Proof.
  unfold getFirst. split.
  - induction tiddlers as [|t rest IH]; simpl; [done|].
    destruct (String.eqb (title t) title') eqn:Ht.
    + intros [= ->]. exists [], rest. apply String.eqb_eq in Ht. by repeat split.
    + intros Hfind. destruct (IH Hfind) as (before & after & -> & Htitle & Hbefore).
      exists (t :: before), after. repeat split; [done|].
      constructor; [by apply String.eqb_neq|done].
  - intros (before & after & -> & Htitle & Hbefore).
    induction Hbefore as [|t before Ht _ IH]; simpl.
    + apply String.eqb_eq in Htitle. by rewrite Htitle.
    + apply String.eqb_neq in Ht. by rewrite Ht.
Qed.

(** [getFirst] answers with nothing exactly when no record has the title. *)
Theorem getFirst_None_iff (tiddlers : list NamespacedTiddler) (title' : string) :
  getFirst tiddlers title' = None <->
  Forall (fun t => title t <> title') tiddlers.
Proof.
  unfold getFirst. induction tiddlers as [|t rest IH]; simpl.
  - split; [constructor|done].
  - destruct (String.eqb (title t) title') eqn:Ht.
    + split; [done|]. intros Hall. apply Forall_cons in Hall as [Hne _].
      by apply String.eqb_eq in Ht.
    + rewrite IH. apply String.eqb_neq in Ht. split.
      * intros Hrest. by constructor.
      * intros Hall. by apply Forall_cons in Hall as [_ Hrest].
Qed.

Lemma Object_assign_merge_eq (existing update : gmap string Value) :
  Object_assign ∅ [existing; update] = update ∪ existing.
Proof.
  apply map_eq. intros field. rewrite Object_assign_merge, lookup_union.
  destruct (update !! field), (existing !! field); done.
Qed.

Lemma assign_twice_union (existing update : gmap string Value) :
  map_fold (fun k v acc => <[k := v]> acc)
           (map_fold (fun k v acc => <[k := v]> acc) ∅ existing) update =
  update ∪ existing.
Proof. apply Object_assign_merge_eq. Qed.

Section UpdaterAlgebra.
Context {User : Type} `{tiddlerFactory : TiddlerFactory User}.

(** An update with no fields yields the current value unchanged. *)
Theorem getUpdater_empty_update (user : User) (title' : string)
  (expectedRevision : option Revision) (existingTiddler : Tiddler) :
  getUpdater user title' (Update ∅ expectedRevision) (Some existingTiddler) =
  Resolved existingTiddler.
Proof.
  unfold getUpdater. f_equal. rewrite Object_assign_merge_eq. apply (left_id ∅ (∪)).
Qed.

(** Applying the same update to its own result changes nothing more. *)
Theorem getUpdater_update_idempotent (user : User) (title' : string)
  (update : TiddlerData) (expectedRevision : option Revision)
  (existingTiddler merged : Tiddler) :
  getUpdater user title' (Update update expectedRevision) (Some existingTiddler) =
    Resolved merged ->
  getUpdater user title' (Update update expectedRevision) (Some merged) =
    Resolved merged.
Proof.
  unfold getUpdater. intros Hmerged.
  assert (merged = update ∪ existingTiddler) as ->
    by (rewrite <- Object_assign_merge_eq; congruence).
  f_equal. rewrite Object_assign_merge_eq.
  by rewrite (assoc_L (∪)), (idemp_L (∪)).
Qed.

(** An update drops no field: the fields of the result are those of the
    current value together with those of the update. *)
Theorem getUpdater_update_fields (user : User) (title' : string)
  (update : TiddlerData) (expectedRevision : option Revision)
  (existingTiddler merged : Tiddler) :
  getUpdater user title' (Update update expectedRevision) (Some existingTiddler) =
    Resolved merged ->
  dom merged = dom existingTiddler ∪ dom update.
Proof.
  unfold getUpdater. intros Hmerged.
  assert (merged = update ∪ existingTiddler) as ->
    by (rewrite <- Object_assign_merge_eq; congruence).
  rewrite dom_union_L. apply (comm_L (∪)).
Qed.

(** Of two updates in a row, the later wins on the fields they share, and
    the pair amounts to one update with the later laid over the earlier. *)
Theorem getUpdater_update_twice (user : User) (title' : string)
  (first second : TiddlerData) (rev1 rev2 rev : option Revision)
  (existingTiddler merged : Tiddler) :
  getUpdater user title' (Update first rev1) (Some existingTiddler) =
    Resolved merged ->
  getUpdater user title' (Update second rev2) (Some merged) =
  getUpdater user title' (Update (second ∪ first) rev) (Some existingTiddler).
Proof.
  unfold getUpdater. intros Hmerged.
  assert (merged = first ∪ existingTiddler) as ->
    by (rewrite <- Object_assign_merge_eq; congruence).
  f_equal. rewrite !Object_assign_merge_eq.
  by rewrite (assoc_L (∪)).
Qed.
End UpdaterAlgebra.

(** ** Further properties that hold for every collaborator *)

Section FacadeWithAnyCollaborators.
Context {S User : Type}.
Context `{persistenceOps : TiddlerPersistence S}.
Context `{policyChecker : PolicyChecker S User}.
Context `{recipeResolver : RecipeResolver S User}.
Context `{tiddlerFactory : TiddlerFactory User}.

Implicit Types (w : World S) (user : User) (ns : TiddlerNamespace).
Implicit Types (namespacedRecipe : NamespacedRecipe).
Implicit Types (updateOrCreate : TiddlerUpdateOrCreate).

(** A bag read whose permission is denied rejects with Forbidden and the
    checker's reason, before any persistence call. *)
Theorem readFromBag_denied user ns title' w p rest :
  verifyReadAccess (handle w) user (ns_wiki ns) [ns_bag ns] = Resolved (p :: rest) ->
  allowed p = false ->
  readFromBag user ns title' w =
  (Rejected (HTTPError ("Tiddler read denied " +:+ or_empty (reason p))
                       HTTP_FORBIDDEN), w).
Proof.
  intros Hperm Hp. unfold readFromBag. run_facade. by rewrite Hperm, Hp.
Qed.

(** The single-bag operations read the first permission of the checker's
    answer: on an empty answer each of them rejects with a [TypeError],
    before any persistence call. *)
Theorem empty_permissions_TypeError user ns title' rtitle updateOrCreate
  expectedRevision w :
  (verifyReadAccess (handle w) user (ns_wiki ns) [ns_bag ns] = Resolved [] ->
   readFromBag user ns rtitle w = (Rejected TypeError, w))
  /\ (getWriteableBag (handle w) user (ns_wiki ns) [ns_bag ns] title'
                      (getTiddlerData updateOrCreate) = Resolved [] ->
      writeToBag user ns title' updateOrCreate w = (Rejected TypeError, w))
  /\ (verifyRemoveAccess (handle w) user (ns_wiki ns) [ns_bag ns] = Resolved [] ->
      removeFromBag user ns title' expectedRevision w = (Rejected TypeError, w)).
Proof.
  split; [|split]; intros Hperm.
  - unfold readFromBag. run_facade. by rewrite Hperm.
  - unfold writeToBag. run_facade. by rewrite Hperm.
  - unfold removeFromBag. run_facade. by rewrite Hperm.
Qed.

(** Whatever the collaborators answer, the two read operations leave the
    store as it is and issue at most one persistence call, a read. *)
Theorem reads_never_write user ns namespacedRecipe title' w :
  (handle (readFromBag user ns title' w).2 = handle w
   /\ exists calls,
        issued (readFromBag user ns title' w).2 = (issued w ++ calls)%list
        /\ forallb is_read calls = true /\ List.length calls <= 1)
  /\ (handle (readFromRecipe user namespacedRecipe title' w).2 = handle w
      /\ exists calls,
           issued (readFromRecipe user namespacedRecipe title' w).2 =
             (issued w ++ calls)%list
           /\ forallb is_read calls = true /\ List.length calls <= 1).
Proof.
  assert (Hnone : forall l : list PersistenceCall,
             exists calls, l = (l ++ calls)%list
               /\ forallb is_read calls = true /\ List.length calls <= 1).
  { intros l. exists []. rewrite app_nil_r. repeat split; simpl; lia. }
  assert (Hone : forall (l : list PersistenceCall) c, is_read c = true ->
             exists calls, (l ++ [c])%list = (l ++ calls)%list
               /\ forallb is_read calls = true /\ List.length calls <= 1).
  { intros l c Hc. exists [c]. simpl. rewrite Hc. repeat split; lia. }
  split.
  - unfold readFromBag. run_facade.
    destruct (verifyReadAccess _ _ _ _) as [[|p rest]|e]; simpl; auto.
    destruct (allowed p); simpl; auto.
    destruct (truthy title'); simpl.
    + destruct (readDocs _ _) as [[|t l]|e]; simpl; auto.
    + destruct (readCollections _ _) as [l|e]; simpl; auto.
  - unfold readFromRecipe. run_facade.
    destruct (getRecipeBags _ _ _ _) as [[bags|]|e]; simpl; auto.
    destruct (verifyReadAccess _ _ _ _) as [permissions|e]; simpl; auto.
    destruct (forallb allowed permissions); simpl; auto.
    destruct (readCollections _ _) as [l|e]; simpl; auto.
    destruct (truthy title'); simpl; auto.
    destruct (getFirst _ _); simpl; auto.
Qed.

(** A bag read without a title, or with the empty title, on an allowed bag
    is one [readCollections] of that bag, and resolves with all it
    returned, also when that is nothing. *)
Theorem readFromBag_all user ns title' w p rest tiddlers :
  verifyReadAccess (handle w) user (ns_wiki ns) [ns_bag ns] = Resolved (p :: rest) ->
  allowed p = true ->
  title' = None \/ title' = Some "" ->
  readCollections [ns] (handle w) = Resolved tiddlers ->
  readFromBag user ns title' w =
  (Resolved (Many tiddlers), record_call (CallReadCollections [ns]) w).
Proof.
  intros Hperm Hp Htitle Hread. unfold readFromBag. run_facade.
  rewrite Hperm, Hp. by destruct Htitle as [-> | ->]; simpl; rewrite Hread.
Qed.

(** A recipe read with one denied bag rejects without reading any bag,
    the readable ones included. *)
Theorem readFromRecipe_denied_reads_nothing user namespacedRecipe title' w
  bags permissions :
  getRecipeBags user ReadMode (handle w) namespacedRecipe = Resolved (Some bags) ->
  verifyReadAccess (handle w) user (recipe_wiki namespacedRecipe) bags =
    Resolved permissions ->
  Exists (fun q => allowed q = false) permissions ->
  exists e, readFromRecipe user namespacedRecipe title' w = (Rejected e, w).
Proof.
  intros Hbags Hperm Hdenied. eexists.
  by apply readFromRecipe_denied with (bags := bags).
Qed.

(** A recipe read whose bags are all readable is one [readCollections],
    over the resolved bags in resolution order, each in the recipe's wiki. *)
Theorem readFromRecipe_reads_resolved_bags user namespacedRecipe title' w
  bags permissions :
  getRecipeBags user ReadMode (handle w) namespacedRecipe = Resolved (Some bags) ->
  verifyReadAccess (handle w) user (recipe_wiki namespacedRecipe) bags =
    Resolved permissions ->
  forallb allowed permissions = true ->
  (readFromRecipe user namespacedRecipe title' w).2 =
  record_call
    (CallReadCollections
       (map (fun bag => {| ns_wiki := recipe_wiki namespacedRecipe; ns_bag := bag |})
            bags)) w.
Proof.
  intros Hbags Hperm Hall. unfold readFromRecipe. run_facade.
  rewrite Hbags, Hperm, Hall. simpl.
  destruct (readCollections _ _) as [l|e]; simpl; [|done].
  destruct (truthy title'); simpl; [|done].
  by destruct (getFirst _ _).
Qed.

(** An allowed bag write is one compare-and-swap, on the namespace and
    title given, gated by the expected revision of the intent. *)
Theorem writeToBag_one_updateDoc user ns title' updateOrCreate w p rest :
  getWriteableBag (handle w) user (ns_wiki ns) [ns_bag ns] title'
                  (getTiddlerData updateOrCreate) = Resolved (p :: rest) ->
  allowed p = true ->
  issued (writeToBag user ns title' updateOrCreate w).2 =
  (issued w ++ [CallUpdateDoc ns title' (getExpectedRevision updateOrCreate)])%list.
Proof.
  intros Hperm Hp. unfold writeToBag. run_facade. rewrite Hperm, Hp.
  destruct (updateDoc _ _ _ _ _) as [[[record|]|e] [s' []]]; reflexivity.
Qed.

(** What the compare-and-swap rejects with (a Conflict, or what the updater
    threw) is what the write and remove operations reject with. *)
Theorem updateDoc_failure_propagates user ns title' updateOrCreate
  expectedRevision w p rest e :
  (getWriteableBag (handle w) user (ns_wiki ns) [ns_bag ns] title'
                   (getTiddlerData updateOrCreate) = Resolved (p :: rest) ->
   allowed p = true ->
   (updateDoc ns title' (closure (getUpdater user title' updateOrCreate))
              (getExpectedRevision updateOrCreate) (handle w, tt)).1 = Rejected e ->
   (writeToBag user ns title' updateOrCreate w).1 = Rejected e)
  /\ (verifyRemoveAccess (handle w) user (ns_wiki ns) [ns_bag ns] =
        Resolved (p :: rest) ->
      allowed p = true ->
      (updateDoc ns title' removeUpdater (Some expectedRevision)
                 (handle w, false)).1 = Rejected e ->
      (removeFromBag user ns title' expectedRevision w).1 = Rejected e).
Proof.
  split; intros Hperm Hp Hcas.
  - unfold writeToBag. run_facade. rewrite Hperm, Hp.
    destruct (updateDoc _ _ _ _ _) as [r [s' []]]. simpl in Hcas. by subst r.
  - unfold removeFromBag. run_facade. rewrite Hperm, Hp.
    destruct (updateDoc _ _ _ _ _) as [r [s' l']]. simpl in Hcas. by subst r.
Qed.

(** A bound recipe write over a facade call that resolved with nothing
    rejects with a [TypeError]: it never resolves with an empty record. *)
Theorem bound_writeToRecipe_null_TypeError user (wiki recipe title' : string)
  updateOrCreate w w' :
  writeToRecipe user {| recipe_wiki := wiki; recipe_name := recipe |}
                title' updateOrCreate w = (Resolved None, w') ->
  BoundTiddlerStoreImpl.writeToRecipe user wiki recipe title' updateOrCreate w =
  (Rejected TypeError, w').
Proof.
  intros Hcall. unfold BoundTiddlerStoreImpl.writeToRecipe, await. by rewrite Hcall.
Qed.

End FacadeWithAnyCollaborators.

(** ** Further properties over the reference persistence *)

(** Within one namespace the titles of the stored records are distinct. *)
Lemma record_in_titles_NoDup (ns : TiddlerNamespace)
  (entries : list ((string * string * string) * (Tiddler * Revision))) :
  NoDup entries.*1 ->
  NoDup (map title (omap (record_in ns) entries)).
Proof.
  induction entries as [|[[[wk b] t] [v r]] entries IH]; simpl; [constructor|].
  intros Hkeys. apply NoDup_cons in Hkeys as [Hfresh Hkeys].
  destruct (decide (wk = ns_wiki ns /\ b = ns_bag ns)) as [[-> ->]|_]; simpl;
    [|by apply IH].
  apply NoDup_cons. split; [|by apply IH].
  intros Hin. apply Hfresh.
  apply list_elem_of_fmap in Hin as (record & Htitle & Hin).
  apply list_elem_of_omap in Hin as ([[[wk' b'] t'] [v' r']] & Hentry & Hrec).
  simpl in Hrec.
  destruct (decide (wk' = ns_wiki ns /\ b' = ns_bag ns)) as [[-> ->]|_]; [|done].
  injection Hrec as <-. simpl in Htitle. subst t'.
  apply list_elem_of_fmap. by exists (ns_wiki ns, ns_bag ns, t, (v', r')).
Qed.

Lemma collection_titles_NoDup (m : MemoryStore) (ns : TiddlerNamespace) :
  NoDup (map title (collection m ns)).
Proof. apply record_in_titles_NoDup, NoDup_fst_map_to_list. Qed.

Section FacadeOverMemoryStore.
Context {User : Type} (mint : nat -> Revision).
Context `{policyChecker : PolicyChecker MemoryStore User}.
Context `{recipeResolver : RecipeResolver MemoryStore User}.
Context `{tiddlerFactory : TiddlerFactory User}.

Let memoryOps : TiddlerPersistence MemoryStore := memoryPersistence mint.
#[local] Existing Instance memoryOps.

Implicit Types (w : World MemoryStore) (user : User) (ns : TiddlerNamespace).
Implicit Types (namespacedRecipe : NamespacedRecipe).
Implicit Types (updateOrCreate : TiddlerUpdateOrCreate).

(** What a bag read with a title answers, from what is stored. *)
Lemma readFromBag_title_stored user ns title' w p rest :
  verifyReadAccess (handle w) user (ns_wiki ns) [ns_bag ns] = Resolved (p :: rest) ->
  allowed p = true ->
  title' <> "" ->
  (readFromBag user ns (Some title') w).1 =
  match stored (handle w) ns title' with
  | Some (v, r) =>
      Resolved (Single {| namespace := ns; title := title'; value := v;
                          revision := r |})
  | None =>
      Rejected (HTTPError
        ("Tiddler " +:+ title' +:+ " not found in wiki " +:+ ns_wiki ns +:+
         " bag " +:+ ns_bag ns) HTTP_NOT_FOUND)
  end.
Proof.
  intros Hperm Hp Htitle. apply String.eqb_neq in Htitle.
  unfold readFromBag. run_facade. rewrite Hperm, Hp, Htitle. simpl.
  by destruct (stored (handle w) ns title') as [[v r]|].
Qed.

(** What a resolved bag write leaves behind. *)
Lemma writeToBag_resolved_inv user ns title' updateOrCreate w record w' :
  writeToBag user ns title' updateOrCreate w = (Resolved record, w') ->
  namespace record = ns /\ title record = title' /\
  stored (handle w') ns title' = Some (value record, revision record).
Proof.
  unfold writeToBag. run_facade.
  destruct (getWriteableBag _ _ _ _ _ _) as [[|p rest]|e]; simpl; [done| |done].
  destruct (allowed p); simpl; [|done].
  destruct (revision_conflict _ _); simpl; [done|].
  unfold closure.
  destruct (getUpdater _ _ _ _) as [t|e]; simpl; [|done].
  intros [= <- <-]. repeat split. unfold stored; simpl. apply lookup_insert_eq.
Qed.

(** What a resolved removal leaves behind. *)
Lemma removeFromBag_resolved_inv user ns title' expectedRevision w b w' :
  removeFromBag user ns title' expectedRevision w = (Resolved b, w') ->
  b = existed (handle w) ns title'
  /\ docs (handle w') = delete (doc_key ns title') (docs (handle w))
  /\ clock (handle w') = clock (handle w).
Proof.
  unfold removeFromBag. run_facade.
  destruct (verifyRemoveAccess _ _ _ _) as [[|p rest]|e]; simpl; [done| |done].
  destruct (allowed p); simpl; [|done].
  unfold existed.
  destruct (stored (handle w) ns title') as [[v r]|]; simpl.
  - destruct (negb _); simpl; [done|]. by intros [= <- <-].
  - by intros [= <- <-].
Qed.

(** What a recipe write that resolved with a record leaves behind. *)
Lemma writeToRecipe_resolved_inv user namespacedRecipe title' updateOrCreate w
  record w' :
  writeToRecipe user namespacedRecipe title' updateOrCreate w =
    (Resolved (Some record), w') ->
  ns_wiki (namespace record) = recipe_wiki namespacedRecipe
  /\ title record = title'
  /\ stored (handle w') (namespace record) title' =
     Some (value record, revision record).
Proof.
  unfold writeToRecipe. run_facade.
  destruct (getRecipeBags _ _ _ _) as [[bags|]|e]; simpl; [|done|done].
  destruct (getWriteableBag _ _ _ _ _ _) as [permissions|e]; simpl; [|done].
  destruct (List.find allowed permissions) as [bagToWrite|]; simpl; [|done].
  destruct (revision_conflict _ _); simpl; [done|].
  unfold closure.
  destruct (getUpdater _ _ _ _) as [t|e]; simpl; [|done].
  intros [= <- <-]. repeat split. unfold stored; simpl. apply lookup_insert_eq.
Qed.

(** A bag read with a title, on an allowed bag, returns the stored record of
    that title. *)
Theorem readFromBag_found user ns title' w p rest v r :
  verifyReadAccess (handle w) user (ns_wiki ns) [ns_bag ns] = Resolved (p :: rest) ->
  allowed p = true ->
  title' <> "" ->
  stored (handle w) ns title' = Some (v, r) ->
  (readFromBag user ns (Some title') w).1 =
  Resolved (Single {| namespace := ns; title := title'; value := v; revision := r |}).
Proof.
  intros Hperm Hp Htitle Hdoc.
  by rewrite (readFromBag_title_stored _ _ _ _ _ _ Hperm Hp Htitle), Hdoc.
Qed.

(** A bag read with a title that is not stored rejects with NotFound. *)
Theorem readFromBag_missing user ns title' w p rest :
  verifyReadAccess (handle w) user (ns_wiki ns) [ns_bag ns] = Resolved (p :: rest) ->
  allowed p = true ->
  title' <> "" ->
  stored (handle w) ns title' = None ->
  (readFromBag user ns (Some title') w).1 =
  Rejected (HTTPError
    ("Tiddler " +:+ title' +:+ " not found in wiki " +:+ ns_wiki ns +:+
     " bag " +:+ ns_bag ns) HTTP_NOT_FOUND).
Proof.
  intros Hperm Hp Htitle Hdoc.
  by rewrite (readFromBag_title_stored _ _ _ _ _ _ Hperm Hp Htitle), Hdoc.
Qed.

(** A bag read without a title returns the documents stored in the bag:
    all of them, nothing else, each title once. *)
Theorem readFromBag_whole_bag user ns w p rest :
  verifyReadAccess (handle w) user (ns_wiki ns) [ns_bag ns] = Resolved (p :: rest) ->
  allowed p = true ->
  exists tiddlers,
    (readFromBag user ns None w).1 = Resolved (Many tiddlers)
    /\ (forall record,
          record ∈ tiddlers <->
          namespace record = ns /\
          stored (handle w) ns (title record) = Some (value record, revision record))
    /\ NoDup (map title tiddlers).
Proof.
  intros Hperm Hp. exists (collection (handle w) ns). split; [|split].
  - unfold readFromBag. run_facade. rewrite Hperm, Hp. simpl.
    by rewrite app_nil_r.
  - intros record. apply elem_of_collection.
  - apply collection_titles_NoDup.
Qed.

(** Write then read: after a bag write resolved with a record, a read of
    that bag and title returns the same record. *)
Theorem writeToBag_then_readFromBag user ns title' updateOrCreate w record w' p rest :
  writeToBag user ns title' updateOrCreate w = (Resolved record, w') ->
  verifyReadAccess (handle w') user (ns_wiki ns) [ns_bag ns] = Resolved (p :: rest) ->
  allowed p = true ->
  title' <> "" ->
  (readFromBag user ns (Some title') w').1 = Resolved (Single record).
Proof.
  intros Hwrite Hperm Hp Htitle.
  apply writeToBag_resolved_inv in Hwrite as (Hns & Ht & Hdoc).
  rewrite (readFromBag_title_stored _ _ _ _ _ _ Hperm Hp Htitle), Hdoc.
  destruct record as [ns' t v r]; simpl in *. by subst.
Qed.

(** Remove then read: after a removal resolved, a read of that bag and
    (non-empty) title rejects with NotFound. *)
Theorem removeFromBag_then_readFromBag user ns title' expectedRevision w b w' p rest :
  removeFromBag user ns title' expectedRevision w = (Resolved b, w') ->
  verifyReadAccess (handle w') user (ns_wiki ns) [ns_bag ns] = Resolved (p :: rest) ->
  allowed p = true ->
  title' <> "" ->
  (readFromBag user ns (Some title') w').1 =
  Rejected (HTTPError
    ("Tiddler " +:+ title' +:+ " not found in wiki " +:+ ns_wiki ns +:+
     " bag " +:+ ns_bag ns) HTTP_NOT_FOUND).
Proof.
  intros Hremove Hperm Hp Htitle.
  apply removeFromBag_resolved_inv in Hremove as (_ & Hdocs & _).
  rewrite (readFromBag_title_stored _ _ _ _ _ _ Hperm Hp Htitle).
  unfold stored. by rewrite Hdocs, lookup_delete_eq.
Qed.

(** Remove twice: after a removal resolved, an allowed second removal of the
    same title returns [false] and leaves the store as it is, whatever
    revision it expects. *)
Theorem removeFromBag_twice user ns title' expectedRevision again w b w' p rest :
  removeFromBag user ns title' expectedRevision w = (Resolved b, w') ->
  verifyRemoveAccess (handle w') user (ns_wiki ns) [ns_bag ns] =
    Resolved (p :: rest) ->
  allowed p = true ->
  exists w'',
    removeFromBag user ns title' again w' = (Resolved false, w'')
    /\ handle w'' = handle w'.
Proof.
  intros Hremove Hperm Hp.
  apply removeFromBag_resolved_inv in Hremove as (_ & Hdocs & _).
  assert (Hgone : stored (handle w') ns title' = None).
  { unfold stored. by rewrite Hdocs, lookup_delete_eq. }
  unfold removeFromBag. run_facade. rewrite Hperm, Hp. simpl.
  rewrite Hgone. simpl. eexists. split; [reflexivity|]. simpl.
  destruct (handle w') as [d c]; simpl in *. f_equal.
  by apply delete_id.
Qed.

(** An update intent on a title that is not stored rejects with BadRequest
    and stores nothing. *)
Theorem writeToBag_update_missing user ns title' update expectedRevision w p rest :
  getWriteableBag (handle w) user (ns_wiki ns) [ns_bag ns] title' update =
    Resolved (p :: rest) ->
  allowed p = true ->
  stored (handle w) ns title' = None ->
  (writeToBag user ns title' (Update update expectedRevision) w).1 =
    Rejected (HTTPError
      ("Tiddler " +:+ title' +:+
       " received update, but no such tiddler exists in bag") HTTP_BAD_REQUEST)
  /\ handle (writeToBag user ns title' (Update update expectedRevision) w).2 =
     handle w.
Proof.
  intros Hperm Hp Hdoc. unfold writeToBag. run_facade.
  rewrite Hperm, Hp. simpl. rewrite Hdoc. simpl.
  by destruct expectedRevision.
Qed.

(** An update intent on a stored title, past the revision gate, stores the
    shallow merge of the stored value and the update under a new revision,
    and returns that record. *)
Theorem writeToBag_update_stored user ns title' update expectedRevision w p rest v r :
  getWriteableBag (handle w) user (ns_wiki ns) [ns_bag ns] title' update =
    Resolved (p :: rest) ->
  allowed p = true ->
  stored (handle w) ns title' = Some (v, r) ->
  revision_conflict (Some r) expectedRevision = false ->
  exists w',
    writeToBag user ns title' (Update update expectedRevision) w =
    (Resolved {| namespace := ns; title := title'; value := update ∪ v;
                 revision := mint (clock (handle w)) |}, w')
    /\ stored (handle w') ns title' = Some (update ∪ v, mint (clock (handle w))).
Proof.
  intros Hperm Hp Hdoc Hgate. unfold writeToBag. run_facade.
  rewrite Hperm, Hp. simpl. rewrite Hdoc. simpl. simpl in Hgate. rewrite Hgate.
  rewrite assign_twice_union.
  eexists. split; [reflexivity|]. unfold stored; simpl. apply lookup_insert_eq.
Qed.

(** A bag write and a removal touch one document: whatever their outcome,
    every document under another key is as it was, and a removal mints no
    revision. *)
Theorem write_remove_touch_one_document user ns title' updateOrCreate
  expectedRevision w key :
  key <> doc_key ns title' ->
  docs (handle (writeToBag user ns title' updateOrCreate w).2) !! key =
    docs (handle w) !! key
  /\ docs (handle (removeFromBag user ns title' expectedRevision w).2) !! key =
     docs (handle w) !! key
  /\ clock (handle (removeFromBag user ns title' expectedRevision w).2) =
     clock (handle w).
Proof.
  intros Hkey. split; [|split].
  - unfold writeToBag. run_facade.
    destruct (getWriteableBag _ _ _ _ _ _) as [[|p rest]|e]; simpl; [done| |done].
    destruct (allowed p); simpl; [|done].
    destruct (revision_conflict _ _); simpl; [done|].
    unfold closure.
    destruct (getUpdater _ _ _ _) as [t|e]; simpl; [|done].
    by rewrite lookup_insert_ne.
  - unfold removeFromBag. run_facade.
    destruct (verifyRemoveAccess _ _ _ _) as [[|p rest]|e]; simpl; [done| |done].
    destruct (allowed p); simpl; [|done].
    destruct (stored (handle w) ns title') as [[v r]|]; simpl.
    + destruct (negb _); simpl; [done|]. by rewrite lookup_delete_ne.
    + by rewrite lookup_delete_ne.
  - unfold removeFromBag. run_facade.
    destruct (verifyRemoveAccess _ _ _ _) as [[|p rest]|e]; simpl; [done| |done].
    destruct (allowed p); simpl; [|done].
    destruct (stored (handle w) ns title') as [[v r]|]; simpl; [|done].
    by destruct (negb _).
Qed.

(** Write through a recipe, then read through it, with a non-empty title:
    the read returns the written record when, in the read resolution, no
    bag before the one written to stores the title. *)
Theorem writeToRecipe_then_readFromRecipe user namespacedRecipe title'
  updateOrCreate w record w' bags permissions before after :
  writeToRecipe user namespacedRecipe title' updateOrCreate w =
    (Resolved (Some record), w') ->
  getRecipeBags user ReadMode (handle w') namespacedRecipe = Resolved (Some bags) ->
  verifyReadAccess (handle w') user (recipe_wiki namespacedRecipe) bags =
    Resolved permissions ->
  forallb allowed permissions = true ->
  title' <> "" ->
  bags = (before ++ ns_bag (namespace record) :: after)%list ->
  (forall a, a ∈ before ->
     stored (handle w')
       {| ns_wiki := recipe_wiki namespacedRecipe; ns_bag := a |} title' = None) ->
  (readFromRecipe user namespacedRecipe (Some title') w').1 =
  Resolved (Single record).
Proof.
  intros Hwrite Hbags Hperm Hall Htitle -> Hbefore.
  apply writeToRecipe_resolved_inv in Hwrite as (Hwiki & Ht & Hdoc).
  destruct record as [[wk b] t v r]; simpl in *. subst wk t.
  apply String.eqb_neq in Htitle.
  unfold readFromRecipe. run_facade.
  rewrite Hbags, Hperm, Hall. simpl. rewrite Htitle. simpl.
  by rewrite (getFirst_first_bag _ _ _ _ _ _ _ _ Hbefore Hdoc).
Qed.

(** Through the bound adapter: after a bound bag write resolved with a
    triple, a bound read of that bag and (non-empty) title returns the same
    triple. *)
Theorem bound_writeToBag_then_readFromBag user (wiki bag title' : string)
  updateOrCreate w written w' p rest :
  BoundTiddlerStoreImpl.writeToBag user wiki bag title' updateOrCreate w =
    (Resolved written, w') ->
  verifyReadAccess (handle w') user wiki [bag] = Resolved (p :: rest) ->
  allowed p = true ->
  title' <> "" ->
  (BoundTiddlerStoreImpl.readFromBag user wiki bag (Some title') w').1 =
  Resolved (Single written).
Proof.
  unfold BoundTiddlerStoreImpl.writeToBag, BoundTiddlerStoreImpl.readFromBag, await.
  intros Hwrite Hperm Hp Htitle.
  destruct (writeToBag _ _ _ _ w) as [[record|e] w1] eqn:Hfacade; [|done].
  injection Hwrite as <- <-.
  apply writeToBag_resolved_inv in Hfacade as (Hns & Ht & Hdoc).
  pose proof (readFromBag_title_stored user {| ns_wiki := wiki; ns_bag := bag |}
                title' w1 p rest Hperm Hp Htitle) as Hread.
  rewrite Hdoc in Hread.
  destruct (readFromBag _ _ _ w1) as [r w2]. simpl in Hread. subst r. simpl.
  destruct record as [ns' t v r]; simpl in *. by subst.
Qed.

End FacadeOverMemoryStore.

(** ** Further scenarios *)

Section AllowedScenarios.
Import Fixtures.

Let policy : PolicyChecker MemoryStore string := fixedPolicy allowAll.
Let resolver : RecipeResolver MemoryStore string := fixedResolver (Some ["A"; "B"]).
#[local] Existing Instances memoryOps factory policy resolver.

Lemma getUpdater_update_idempotent_witness :
  getUpdater "alice" "X" (Update (text "z") None) (Some (text "z" ∪ text "a")) =
  Resolved (text "z" ∪ text "a").
Proof.
  apply (getUpdater_update_idempotent "alice" "X" (text "z") None (text "a")).
  unfold getUpdater. by rewrite Object_assign_merge_eq.
Defined.

Lemma getUpdater_update_fields_witness :
  dom (text "z" ∪ ({[ "tags" := VArr [] ]} : Tiddler)) =
  dom ({[ "tags" := VArr [] ]} : Tiddler) ∪ dom (text "z").
Proof.
  apply (getUpdater_update_fields "alice" "X" (text "z") None {[ "tags" := VArr [] ]}).
  unfold getUpdater. by rewrite Object_assign_merge_eq.
Defined.

Lemma getUpdater_update_twice_witness :
  getUpdater "alice" "X" (Update (text "second") None) (Some (text "first" ∪ text "a")) =
  getUpdater "alice" "X" (Update (text "second" ∪ text "first") None) (Some (text "a")).
Proof.
  apply (getUpdater_update_twice "alice" "X" (text "first") (text "second")
           None None None (text "a")).
  unfold getUpdater. by rewrite Object_assign_merge_eq.
Defined.

Lemma readFromBag_all_witness :
  readFromBag "alice" bagA (Some "") (fresh shadowed) =
  (Resolved (Many [record bagA "X" "a" "1"]),
   record_call (CallReadCollections [bagA]) (fresh shadowed)).
Proof.
  apply (readFromBag_all "alice" bagA (Some "") (fresh shadowed) (allowAll "A") []);
    [reflexivity|reflexivity|by right|vm_compute; reflexivity].
Defined.

Lemma readFromRecipe_reads_resolved_bags_witness :
  (readFromRecipe "alice" recipe (Some "X") (fresh shadowed)).2 =
  record_call (CallReadCollections [bagA; bagB]) (fresh shadowed).
Proof.
  apply (readFromRecipe_reads_resolved_bags "alice" recipe (Some "X") (fresh shadowed)
           ["A"; "B"] [allowAll "A"; allowAll "B"]); reflexivity.
Defined.

Lemma writeToBag_one_updateDoc_witness :
  issued (writeToBag "alice" bagA "X" (Update (text "z") (Some "1"))
            (fresh shadowed)).2 =
  [CallUpdateDoc bagA "X" (Some "1")].
Proof.
  apply (writeToBag_one_updateDoc "alice" bagA "X" (Update (text "z") (Some "1"))
           (fresh shadowed) (allowAll "A") []); reflexivity.
Defined.

(** A stale expected revision: the stored revision of X in A is "1". *)
Lemma updateDoc_failure_propagates_witness :
  (writeToBag "alice" bagA "X" (Update (text "z") (Some "0")) (fresh shadowed)).1 =
    Rejected (HTTPError "Revision conflict on tiddler X" HTTP_CONFLICT)
  /\ (removeFromBag "alice" bagA "X" "0" (fresh shadowed)).1 =
     Rejected (HTTPError "Revision conflict on tiddler X" HTTP_CONFLICT).
Proof.
  destruct (updateDoc_failure_propagates "alice" bagA "X"
              (Update (text "z") (Some "0")) "0" (fresh shadowed) (allowAll "A") []
              (HTTPError "Revision conflict on tiddler X" HTTP_CONFLICT))
    as [Hwrite Hremove].
  split; [apply Hwrite|apply Hremove]; try reflexivity; vm_compute; reflexivity.
Defined.

Lemma readFromBag_found_witness :
  (readFromBag "alice" bagB (Some "Y") (fresh shadowed)).1 =
  Resolved (Single (record bagB "Y" "y" "3")).
Proof.
  apply (readFromBag_found mint "alice" bagB "Y" (fresh shadowed) (allowAll "B") []);
    [reflexivity|reflexivity|discriminate|vm_compute; reflexivity].
Defined.

Lemma readFromBag_missing_witness :
  (readFromBag "alice" bagA (Some "Y") (fresh shadowed)).1 =
  Rejected (HTTPError "Tiddler Y not found in wiki w bag A" HTTP_NOT_FOUND).
Proof.
  apply (readFromBag_missing mint "alice" bagA "Y" (fresh shadowed) (allowAll "A") []);
    [reflexivity|reflexivity|discriminate|vm_compute; reflexivity].
Defined.

Lemma readFromBag_whole_bag_witness :
  exists tiddlers,
    (readFromBag "alice" bagB None (fresh shadowed)).1 = Resolved (Many tiddlers)
    /\ (forall record,
          record ∈ tiddlers <->
          namespace record = bagB /\
          stored shadowed bagB (title record) = Some (value record, revision record))
    /\ NoDup (map title tiddlers).
Proof.
  apply (readFromBag_whole_bag mint "alice" bagB (fresh shadowed) (allowAll "B") []);
    reflexivity.
Defined.

Lemma writeToBag_then_readFromBag_witness :
  let written :=
    {| namespace := bagA; title := "X";
       value := createTiddler "alice" "X" None (text "z"); revision := mint 0 |} in
  let w' := (writeToBag "alice" bagA "X" (Create (text "z")) (fresh shadowed)).2 in
  (readFromBag "alice" bagA (Some "X") w').1 = Resolved (Single written).
Proof.
  intros written w'.
  apply (writeToBag_then_readFromBag mint "alice" bagA "X" (Create (text "z"))
           (fresh shadowed) written w' (allowAll "A") []);
    [vm_compute; reflexivity|reflexivity|reflexivity|discriminate].
Defined.

Lemma removeFromBag_then_readFromBag_witness :
  let w' := (removeFromBag "alice" bagA "X" "1" (fresh shadowed)).2 in
  (readFromBag "alice" bagA (Some "X") w').1 =
  Rejected (HTTPError "Tiddler X not found in wiki w bag A" HTTP_NOT_FOUND).
Proof.
  intros w'.
  apply (removeFromBag_then_readFromBag mint "alice" bagA "X" "1" (fresh shadowed)
           true w' (allowAll "A") []);
    [vm_compute; reflexivity|reflexivity|reflexivity|discriminate].
Defined.

Lemma removeFromBag_twice_witness :
  let w' := (removeFromBag "alice" bagA "X" "1" (fresh shadowed)).2 in
  exists w'',
    removeFromBag "alice" bagA "X" "stale" w' = (Resolved false, w'')
    /\ handle w'' = handle w'.
Proof.
  intros w'.
  apply (removeFromBag_twice mint "alice" bagA "X" "1" "stale" (fresh shadowed)
           true w' (allowAll "A") []);
    [vm_compute; reflexivity|reflexivity|reflexivity].
Defined.

Lemma writeToBag_update_missing_witness :
  (writeToBag "alice" bagA "Y" (Update (text "z") None) (fresh shadowed)).1 =
    Rejected (HTTPError "Tiddler Y received update, but no such tiddler exists in bag"
                        HTTP_BAD_REQUEST)
  /\ handle (writeToBag "alice" bagA "Y" (Update (text "z") None) (fresh shadowed)).2 =
     shadowed.
Proof.
  apply (writeToBag_update_missing mint "alice" bagA "Y" (text "z") None
           (fresh shadowed) (allowAll "A") []);
    [reflexivity|reflexivity|vm_compute; reflexivity].
Defined.

Lemma writeToBag_update_stored_witness :
  exists w',
    writeToBag "alice" bagA "X" (Update {[ "tags" := VArr [] ]} (Some "1"))
      (fresh shadowed) =
    (Resolved {| namespace := bagA; title := "X";
                 value := {[ "tags" := VArr [] ]} ∪ text "a";
                 revision := mint 0 |}, w')
    /\ stored (handle w') bagA "X" = Some ({[ "tags" := VArr [] ]} ∪ text "a", mint 0).
Proof.
  apply (writeToBag_update_stored mint "alice" bagA "X" {[ "tags" := VArr [] ]}
           (Some "1") (fresh shadowed) (allowAll "A") [] (text "a") "1");
    [reflexivity|reflexivity|vm_compute; reflexivity|reflexivity].
Defined.

Lemma write_remove_touch_one_document_witness :
  docs (handle (writeToBag "alice" bagA "X" (Create (text "z")) (fresh shadowed)).2)
    !! ("w", "B", "X") = docs shadowed !! ("w", "B", "X")
  /\ docs (handle (removeFromBag "alice" bagA "X" "1" (fresh shadowed)).2)
       !! ("w", "B", "X") = docs shadowed !! ("w", "B", "X")
  /\ clock (handle (removeFromBag "alice" bagA "X" "1" (fresh shadowed)).2) =
     clock shadowed.
Proof.
  apply (write_remove_touch_one_document mint "alice" bagA "X" (Create (text "z"))
           "1" (fresh shadowed) ("w", "B", "X")).
  discriminate.
Defined.

Lemma writeToRecipe_then_readFromRecipe_witness :
  let written :=
    {| namespace := bagA; title := "Z";
       value := createTiddler "alice" "Z" None (text "z"); revision := mint 0 |} in
  let w' := (writeToRecipe "alice" recipe "Z" (Create (text "z")) (fresh shadowed)).2 in
  (readFromRecipe "alice" recipe (Some "Z") w').1 = Resolved (Single written).
Proof.
  intros written w'.
  apply (writeToRecipe_then_readFromRecipe mint "alice" recipe "Z" (Create (text "z"))
           (fresh shadowed) written w' ["A"; "B"] [allowAll "A"; allowAll "B"]
           [] ["B"]);
    [vm_compute; reflexivity|reflexivity|reflexivity|reflexivity|discriminate
    |reflexivity|].
  intros a Ha. inversion Ha.
Defined.

Lemma bound_writeToBag_then_readFromBag_witness :
  let written :=
    {| bound_bag := "A"; bound_tiddler := createTiddler "alice" "X" None (text "z");
       bound_revision := mint 0 |} in
  let w' := (BoundTiddlerStoreImpl.writeToBag "alice" "w" "A" "X" (Create (text "z"))
               (fresh shadowed)).2 in
  (BoundTiddlerStoreImpl.readFromBag "alice" "w" "A" (Some "X") w').1 =
  Resolved (Single written).
Proof.
  intros written w'.
  apply (bound_writeToBag_then_readFromBag mint "alice" "w" "A" "X" (Create (text "z"))
           (fresh shadowed) written w' (allowAll "A") []);
    [vm_compute; reflexivity|reflexivity|reflexivity|discriminate].
Defined.

(** C8, as stated, fails on the empty title: recipe r resolves to [A, B],
    both readable, and neither bag stores a document titled "".  The call
    with title "" takes the branch without a title and resolves with the
    list of all records, where the claim has NotFound. *)
Lemma readFromRecipe_empty_title_is_no_title :
  stored shadowed bagA "" = None
  /\ stored shadowed bagB "" = None
  /\ (readFromRecipe "alice" recipe (Some "") (fresh shadowed)).1 =
     Resolved (Many [record bagA "X" "a" "1"; record bagB "Y" "y" "3";
                     record bagB "X" "b" "2"])
  /\ ~ fails_with HTTP_NOT_FOUND
        (readFromRecipe "alice" recipe (Some "") (fresh shadowed)).
Proof.
  split; [vm_compute; reflexivity|]. split; [vm_compute; reflexivity|].
  split; [vm_compute; reflexivity|].
  intros [message Hfail]. vm_compute in Hfail. discriminate.
Qed.

End AllowedScenarios.

Section DeniedScenarios.
Import Fixtures.

Let resolver : RecipeResolver MemoryStore string := fixedResolver (Some ["A"; "B"]).
#[local] Existing Instances memoryOps factory resolver.

Lemma readFromBag_denied_witness :
  readFromBag (policyChecker := fixedPolicy denyAll)
    "alice" bagA (Some "X") (fresh shadowed) =
  (Rejected (HTTPError "Tiddler read denied no A" HTTP_FORBIDDEN), fresh shadowed).
Proof.
  apply (readFromBag_denied (policyChecker := fixedPolicy denyAll)
           "alice" bagA (Some "X") (fresh shadowed) (denyAll "A") []); reflexivity.
Defined.

Lemma empty_permissions_TypeError_witness :
  readFromBag (policyChecker := silentPolicy) "alice" bagA None (fresh shadowed) =
    (Rejected TypeError, fresh shadowed)
  /\ writeToBag (policyChecker := silentPolicy)
       "alice" bagA "X" (Create (text "z")) (fresh shadowed) =
     (Rejected TypeError, fresh shadowed)
  /\ removeFromBag (policyChecker := silentPolicy)
       "alice" bagA "X" "1" (fresh shadowed) =
     (Rejected TypeError, fresh shadowed).
Proof.
  destruct (empty_permissions_TypeError (policyChecker := silentPolicy)
              "alice" bagA "X" None (Create (text "z")) "1" (fresh shadowed))
    as (Hread & Hwrite & Hremove).
  split; [|split]; [apply Hread|apply Hwrite|apply Hremove]; reflexivity.
Defined.

Lemma readFromRecipe_denied_reads_nothing_witness :
  exists e,
    readFromRecipe (policyChecker := fixedPolicy denyA)
      "alice" recipe None (fresh shadowed) = (Rejected e, fresh shadowed).
Proof.
  apply (readFromRecipe_denied_reads_nothing (policyChecker := fixedPolicy denyA)
           "alice" recipe None (fresh shadowed) ["A"; "B"]
           [denyAll "A"; allowAll "B"]); [reflexivity|reflexivity|].
  by left.
Defined.

Lemma bound_writeToRecipe_null_TypeError_witness :
  BoundTiddlerStoreImpl.writeToRecipe (persistenceOps := silentPersistence)
    (policyChecker := fixedPolicy allowAll)
    "alice" "w" "r" "X" (Update (text "z") (Some "1")) (fresh shadowed) =
  (Rejected TypeError,
   (writeToRecipe (persistenceOps := silentPersistence)
      (policyChecker := fixedPolicy allowAll)
      "alice" recipe "X" (Update (text "z") (Some "1")) (fresh shadowed)).2).
Proof.
  apply (bound_writeToRecipe_null_TypeError (persistenceOps := silentPersistence)
           (policyChecker := fixedPolicy allowAll)
           "alice" "w" "r" "X" (Update (text "z") (Some "1")) (fresh shadowed)).
  vm_compute. reflexivity.
Defined.

End DeniedScenarios.
